(** * Entity collections of python-mip ([mip/lists.py])

    A shallow embedding of the four collection classes of [mip/lists.py]
    ([VarList], [VVarList], [ConstrList], [VConstrList]) and the
    properties of index assignment, compaction on removal and lookup
    that hold of them.

    Python objects that the code mutates in place (the [Var] and
    [Constr] handles, whose [idx] attribute [remove] rewrites) live in
    a store addressed by references; the owning model, its solver and
    the two cached sequences form the rest of the state.  Every method
    is a function from a state to an outcome (a value or a raised
    exception) and the state reached. *)

From Stdlib Require Import ZArith Lia Floats.SpecFloat.
From stdpp Require Import base tactics option list sorting strings pretty.

Local Open Scope Z_scope.

(** ** Python values used by the module *)

(** A Python [float]: an IEEE 754 value. *)
Definition float : Type := spec_float.

(** The literals [0.0] and [1.0], and [float("inf")]. *)
Definition float_0 : float := S754_zero false.
Definition float_1 : float := S754_finite false 4503599627370496 (-52).
Definition float_inf : float := S754_infinity false.

(** The exceptions that the module's methods can raise.  [NoObject] is
    not a Python exception: it is the outcome of following a reference
    that names no allocated handle, which no Python run can do. *)
Inductive exn : Type :=
  | IndexError
  | TypeError
  | ValueError
  | AttributeError
  | RecursionError
  | Exception (msg : string)
  | NoObject.

Inductive outcome (A : Type) : Type :=
  | Ok (a : A)
  | Raise (e : exn).
Arguments Ok {A} a.
Arguments Raise {A} e.

(** A reference to a handle object ([Var] or [Constr]). *)
Definition ref : Type := nat.

(** The builtin [slice] object: each of [start], [stop] and [step] is
    an [int] or [None]. *)
Record slice : Type := mkSlice {
  slice_start : option Z;
  slice_stop : option Z;
  slice_step : option Z
}.

(** Attribute access [s.<attr>] on a [slice]: the builtin has exactly
    the three attributes [start], [stop] and [step]; any other name
    raises [AttributeError]. *)
Definition slice_getattr (s : slice) (attr : string) : outcome (option Z) :=
  if String.eqb attr "start" then Ok (slice_start s)
  else if String.eqb attr "stop" then Ok (slice_stop s)
  else if String.eqb attr "step" then Ok (slice_step s)
  else Raise AttributeError.

(** The keys that [__getitem__] is called with. *)
Inductive key : Type :=
  | KStr (s : string)
  | KInt (k : Z)
  | KSlice (s : slice)
  | KOther.

(** ** Python list indexing *)

(** Position denoted by the integer subscript [k] in a list of length
    [n]: [k] itself when [0 <= k < n], [n + k] when [-n <= k < 0],
    and no position (IndexError) otherwise. *)
Definition py_index (n : nat) (k : Z) : option nat :=
  if bool_decide (0 <= k < Z.of_nat n) then Some (Z.to_nat k)
  else if bool_decide (- Z.of_nat n <= k < 0) then Some (Z.to_nat (Z.of_nat n + k))
  else None.

(** [l[k]] *)
Definition py_getitem {A} (l : list A) (k : Z) : option A :=
  p ← py_index (length l) k; l !! p.

(** [l[k] = x] *)
Definition py_setitem {A} (l : list A) (k : Z) (x : A) : option (list A) :=
  p ← py_index (length l) k; Some (<[p := x]> l).

(** [l[start:stop:step]], following CPython's [PySlice_AdjustIndices]:
    [None] if the step is zero (ValueError). *)
Definition slice_clamp (n : Z) (neg_step : bool) (v : Z) : Z :=
  if bool_decide (v < 0) then
    let v' := v + n in
    if bool_decide (v' < 0) then (if neg_step then -1 else 0) else v'
  else if bool_decide (n <= v) then (if neg_step then n - 1 else n)
  else v.

Fixpoint slice_walk {A} (l : list A) (pos step : Z) (count : nat) : list A :=
  match count with
  | O => []
  | S c =>
    match l !! Z.to_nat pos with
    | Some x => x :: slice_walk l (pos + step) step c
    | None => []
    end
  end.

Definition py_slice {A} (l : list A) (s : slice) : option (list A) :=
  let n := Z.of_nat (length l) in
  let step := default 1 (slice_step s) in
  if bool_decide (step = 0) then None
  else
    let neg := bool_decide (step < 0) in
    let start :=
      match slice_start s with
      | Some v => slice_clamp n neg v
      | None => if neg then n - 1 else 0
      end in
    let stop :=
      match slice_stop s with
      | Some v => slice_clamp n neg v
      | None => if neg then -1 else n
      end in
    let count :=
      if neg then (if bool_decide (stop < start) then (start - stop - 1) / (- step) + 1 else 0)
      else (if bool_decide (start < stop) then (stop - start - 1) / step + 1 else 0) in
    Some (slice_walk l start step (Z.to_nat count)).

(** ** The model, its solver and the handle store *)

Section Collections.

(** [Column] and [LinExpr] of [mip.entities] are passed through to the
    solver untouched; [BINARY], [CONTINUOUS] and [INF] are constants
    of [mip.constants].  None of them is defined in [mip/lists.py]. *)
Context {Column LinExpr : Type}.
Variables (BINARY CONTINUOUS : string) (INF : float).

(** A call issued to the solver, with the arguments it was given. *)
Inductive call : Type :=
  | add_var_call (obj lb ub : float) (var_type : string)
                 (column : option Column) (name : string)
  | add_constr_call (lin_expr : LinExpr) (name : string)
  | remove_vars_call (positions : list Z)
  | remove_constrs_call (positions : list Z).

(** Modelled from the spec: the solving engine reached as
    [model.solver] is not part of [mip/lists.py]; section 6 of the
    specification lists the calls it accepts.  The model keeps the
    calls it received, oldest first, and the two counts reported by
    [num_cols] and [num_rows]: an add call raises the count by one
    (the new entity's index is the count before the call), a batch
    removal lowers it by the number of distinct positions of the
    list that lie in [0, count). *)
Record Solver : Type := mkSolver {
  calls : list call;
  cols : nat;
  rows : nat
}.

(** Modelled from the spec: how many entities a batch removal drops. *)
Definition removed_count (positions : list Z) (count : nat) : nat :=
  length (filter (fun p => 0 <= p < Z.of_nat count) (remove_dups positions)).

(** Modelled from the spec: [add_var(obj, lb, ub, var_type, column, name)]. *)
Definition add_var (obj lb ub : float) (var_type : string)
    (column : option Column) (name : string) (s : Solver) : Solver :=
  mkSolver (calls s ++ [add_var_call obj lb ub var_type column name])
           (S (cols s)) (rows s).

(** Modelled from the spec: [add_constr(lin_expr, name)]. *)
Definition add_constr (lin_expr : LinExpr) (name : string) (s : Solver) : Solver :=
  mkSolver (calls s ++ [add_constr_call lin_expr name]) (cols s) (S (rows s)).

(** Modelled from the spec: [remove_vars(positions)]. *)
Definition remove_vars (positions : list Z) (s : Solver) : Solver :=
  mkSolver (calls s ++ [remove_vars_call positions])
           (cols s - removed_count positions (cols s)) (rows s).

(** Modelled from the spec: [remove_constrs(positions)]. *)
Definition remove_constrs (positions : list Z) (s : Solver) : Solver :=
  mkSolver (calls s ++ [remove_constrs_call positions])
           (cols s) (rows s - removed_count positions (rows s)).

(** Modelled from the spec: [num_cols()] and [num_rows()]. *)
Definition num_cols (s : Solver) : Z := Z.of_nat (cols s).
Definition num_rows (s : Solver) : Z := Z.of_nat (rows s).

(** The state: the model's solver, the [idx] attribute of every
    allocated [Var] and [Constr] object (a reference is the position
    of its object, in allocation order), and the private sequences
    [__vars] of the model's [VarList] and [__constrs] of its
    [ConstrList].  All handles belong to the one model of the state,
    so their [model] attribute is left implicit. *)
Record State : Type := mkState {
  solver : Solver;
  var_idx : list Z;
  constr_idx : list Z;
  vars : list ref;
  constrs : list ref
}.

(** The two entity kinds; [VarList] and [ConstrList] run the same
    code on their own kind. *)
Inductive kind : Type := KVar | KConstr.

Definition idx_of (k : kind) (st : State) : list Z :=
  match k with KVar => var_idx st | KConstr => constr_idx st end.

Definition seq_of (k : kind) (st : State) : list ref :=
  match k with KVar => vars st | KConstr => constrs st end.

Definition set_solver (s : Solver) (st : State) : State :=
  mkState s (var_idx st) (constr_idx st) (vars st) (constrs st).

Definition set_idx (k : kind) (h : list Z) (st : State) : State :=
  match k with
  | KVar => mkState (solver st) h (constr_idx st) (vars st) (constrs st)
  | KConstr => mkState (solver st) (var_idx st) h (vars st) (constrs st)
  end.

Definition set_seq (k : kind) (l : list ref) (st : State) : State :=
  match k with
  | KVar => mkState (solver st) (var_idx st) (constr_idx st) l (constrs st)
  | KConstr => mkState (solver st) (var_idx st) (constr_idx st) (vars st) l
  end.

(** *** The monad of methods: state and exceptions *)

Definition M (A : Type) : Type := State -> outcome A * State.

Definition ret {A} (a : A) : M A := fun st => (Ok a, st).

Definition raise {A} (e : exn) : M A := fun st => (Raise e, st).

Definition bind {A B} (m : M A) (f : A -> M B) : M B :=
  fun st =>
    match m st with
    | (Ok a, st') => f a st'
    | (Raise e, st') => (Raise e, st')
    end.

Notation "'let*' x ':=' m 'in' f" := (bind m (fun x => f))
  (at level 10, x name, m at level 100, f at level 200).
Notation "m ';;' f" := (bind m (fun _ => f))
  (at level 100, f at level 200, right associativity).

Definition lift {A} (o : outcome A) : M A := fun st => (o, st).

Definition or_raise {A} (e : exn) (o : option A) : M A :=
  match o with Some a => ret a | None => raise e end.

(** [Var(model, i)] / [Constr(model, i)]: a new handle object. *)
Definition new_handle (k : kind) (i : Z) : M ref :=
  fun st => (Ok (length (idx_of k st)), set_idx k (idx_of k st ++ [i]) st).

(** [v.idx] *)
Definition read_idx (k : kind) (v : ref) : M Z :=
  fun st => or_raise NoObject (idx_of k st !! v) st.

(** [v.idx = i] *)
Definition write_idx (k : kind) (v : ref) (i : Z) : M unit :=
  fun st =>
    if bool_decide (v < length (idx_of k st))%nat
    then (Ok tt, set_idx k (<[v := i]> (idx_of k st)) st)
    else (Raise NoObject, st).

Definition get_seq (k : kind) : M (list ref) := fun st => (Ok (seq_of k st), st).

Definition put_seq (k : kind) (l : list ref) : M unit :=
  fun st => (Ok tt, set_seq k l st).

(** A call [self.__model.solver.f(...)] that returns nothing. *)
Definition solver_do (f : Solver -> Solver) : M unit :=
  fun st => (Ok tt, set_solver (f (solver st)) st).

(** A query [self.__model.solver.f()]. *)
Definition solver_ask {A} (f : Solver -> A) : M A :=
  fun st => (Ok (f (solver st)), st).

(** ['<prefix>({})'.format(n)] *)
Definition format_name (prefix : string) (n : Z) : string :=
  prefix +:+ "(" +:+ pretty n +:+ ")".


(** ** The caching collections: [VarList] and [ConstrList] *)

(** [VarList.add] *)
Definition VarList_add (name : string) (lb ub obj : float) (var_type : string)
    (column : option Column) : M ref :=
  let* vars := get_seq KVar in
  let name :=
    if String.eqb name "" then format_name "var" (Z.of_nat (length vars))
    else name in
  let lb := if String.eqb var_type BINARY then float_0 else lb in
  let ub := if String.eqb var_type BINARY then float_1 else ub in
  let* new_var := new_handle KVar (Z.of_nat (length vars)) in
  solver_do (add_var obj lb ub var_type column name) ;;
  let* vars := get_seq KVar in
  put_seq KVar (vars ++ [new_var]) ;;
  ret new_var.

(** [VarList.add] called without arguments: the declared defaults. *)
Definition VarList_add_default : M ref :=
  VarList_add "" float_0 INF float_0 CONTINUOUS None.

(** [ConstrList.add] *)
Definition ConstrList_add (lin_expr : LinExpr) (name : string) : M ref :=
  let* constrs := get_seq KConstr in
  let name :=
    if String.eqb name "" then format_name "constr" (Z.of_nat (length constrs))
    else name in
  let* new_constr := new_handle KConstr (Z.of_nat (length constrs)) in
  solver_do (add_constr lin_expr name) ;;
  let* constrs := get_seq KConstr in
  put_seq KConstr (constrs ++ [new_constr]) ;;
  ret new_constr.

(** [VarList.__len__] and [ConstrList.__len__] *)
Definition caching_len (k : kind) : M Z :=
  let* l := get_seq k in ret (Z.of_nat (length l)).

Definition VarList_len : M Z := caching_len KVar.
Definition ConstrList_len : M Z := caching_len KConstr.

(** [VarList.update_vars] and [ConstrList.update_constrs]:
    [[Var(self.__model, i) for i in range(n)]]. *)
Fixpoint fresh_handles (k : kind) (i : Z) (count : nat) : M (list ref) :=
  match count with
  | O => ret []
  | S c =>
    let* v := new_handle k i in
    let* vs := fresh_handles k (i + 1) c in
    ret (v :: vs)
  end.

Definition caching_update (k : kind) (n : Z) : M unit :=
  let* l := fresh_handles k 0 (Z.to_nat n) in put_seq k l.

Definition VarList_update_vars : Z -> M unit := caching_update KVar.
Definition ConstrList_update_constrs : Z -> M unit := caching_update KConstr.

(** *** [remove]

    [VarList.remove] and [ConstrList.remove] are the same code on
    [__vars] / [__constrs], calling [remove_vars] /
    [remove_constrs]. *)

(** [[v.idx for v in vars]] *)
Fixpoint read_all (k : kind) (vs : list ref) : M (list Z) :=
  match vs with
  | [] => ret []
  | v :: vs' =>
    let* i := read_idx k v in
    let* rest := read_all k vs' in
    ret (i :: rest)
  end.

(** [for i in vlist: iv[i] = 0] *)
Fixpoint mark (iv : list Z) (vlist : list Z) : option (list Z) :=
  match vlist with
  | [] => Some iv
  | i :: rest => iv' ← py_setitem iv i 0; mark iv' rest
  end.

(** The loop over the cached sequence, with its counter [i]:
    [if iv[v.idx] == 0: v.idx = -1  else: v.idx = i; i += 1]. *)
Fixpoint reindex (k : kind) (iv : list Z) (vs : list ref) (i : Z) : M unit :=
  match vs with
  | [] => ret tt
  | v :: vs' =>
    let* j := read_idx k v in
    let* flag := or_raise IndexError (py_getitem iv j) in
    if bool_decide (flag = 0) then
      write_idx k v (-1) ;; reindex k iv vs' i
    else
      write_idx k v i ;; reindex k iv vs' (i + 1)
  end.

(** [[v for v in self.__vars if v.idx != -1]] *)
Fixpoint still_indexed (k : kind) (vs : list ref) : M (list ref) :=
  match vs with
  | [] => ret []
  | v :: vs' =>
    let* j := read_idx k v in
    let* rest := still_indexed k vs' in
    ret (if bool_decide (j <> -1) then v :: rest else rest)
  end.

Definition solver_remove (k : kind) (positions : list Z) : Solver -> Solver :=
  match k with
  | KVar => remove_vars positions
  | KConstr => remove_constrs positions
  end.

Definition caching_remove (k : kind) (handles : list ref) : M unit :=
  let* cached := get_seq k in
  let iv := replicate (length cached) 1 in
  let* vlist := read_all k handles in
  let vlist := merge_sort Z.le vlist in
  let* iv := or_raise IndexError (mark iv vlist) in
  solver_do (solver_remove k vlist) ;;
  let* cached := get_seq k in
  reindex k iv cached 0 ;;
  let* cached := get_seq k in
  let* kept := still_indexed k cached in
  put_seq k kept.

Definition VarList_remove : list ref -> M unit := caching_remove KVar.
Definition ConstrList_remove : list ref -> M unit := caching_remove KConstr.


(** *** Lookup *)

(** A [VVarList] object: its attributes [__start] and [__end], each
    an [int] or [None]. *)
Record VVarList : Type := mkVVarList {
  vv_start : option Z;
  vv_end : option Z
}.

(** What a [__getitem__] returns: [None] or a handle from a name
    lookup, a handle, a plain list of handles (a slice of a cached
    sequence), or a view. *)
Inductive value : Type :=
  | VNone
  | VHandle (v : ref)
  | VHandles (l : list ref)
  | VView (v : VVarList).

(** [Model.var_by_name] and [Model.constr_by_name] belong to the
    owning model ([mip.model]); lookup by name only delegates to
    them. *)
Variables (var_by_name constr_by_name : string -> M value).

Definition by_name (k : kind) : string -> M value :=
  match k with KVar => var_by_name | KConstr => constr_by_name end.

(** [VarList.__getitem__] and [ConstrList.__getitem__]: a [str] key
    goes to the model, any other key subscripts the cached list. *)
Definition caching_getitem (k : kind) (key : key) : M value :=
  match key with
  | KStr name => by_name k name
  | KInt i =>
    let* cached := get_seq k in
    let* v := or_raise IndexError (py_getitem cached i) in
    ret (VHandle v)
  | KSlice s =>
    let* cached := get_seq k in
    let* l := or_raise ValueError (py_slice cached s) in
    ret (VHandles l)
  | KOther => raise TypeError
  end.

Definition VarList_getitem : key -> M value := caching_getitem KVar.
Definition ConstrList_getitem : key -> M value := caching_getitem KConstr.

(** ** The views: [VVarList] and [VConstrList] *)

(** [VVarList.__init__]; [start] and [end] default to [-1]. *)
Definition VVarList_init (start end_ : option Z) : M VVarList :=
  if bool_decide (start = Some (-1)) then
    let* n := solver_ask num_cols in
    ret (mkVVarList (Some 0) (Some n))
  else ret (mkVVarList start end_).

Definition VVarList_init_default : M VVarList :=
  VVarList_init (Some (-1)) (Some (-1)).

(** [VVarList.__len__] *)
Definition VVarList_len (self : VVarList) : M Z := solver_ask num_cols.

(** [VVarList.add] *)
Definition VVarList_add (self : VVarList) (name : string) (lb ub obj : float)
    (var_type : string) (column : option Column) : M ref :=
  let* name :=
    if String.eqb name "" then
      let* n := VVarList_len self in ret (format_name "var" n)
    else ret name in
  let lb := if String.eqb var_type BINARY then float_0 else lb in
  let ub := if String.eqb var_type BINARY then float_1 else ub in
  let* n := solver_ask num_cols in
  let* new_var := new_handle KVar n in
  solver_do (add_var obj lb ub var_type column name) ;;
  ret new_var.

(** An operand of integer arithmetic or comparison: [None] there
    raises [TypeError]. *)
Definition as_int (o : option Z) : M Z := or_raise TypeError o.

(** [VVarList.__getitem__] *)
Definition VVarList_getitem (self : VVarList) (key : key) : M value :=
  match key with
  | KStr name => var_by_name name
  | KSlice s =>
    let* start := lift (slice_getattr s "start") in
    let* end_ := lift (slice_getattr s "end") in
    let* v := VVarList_init start end_ in
    ret (VView v)
  | KInt key =>
    let* key :=
      if bool_decide (key < 0) then
        let* e := as_int (vv_end self) in ret (e - key)
      else ret key in
    let* e := as_int (vv_end self) in
    if bool_decide (key >= e) then raise IndexError
    else
      let* s := as_int (vv_start self) in
      let* v := new_handle KVar (key + s) in
      ret (VHandle v)
  | KOther => raise (Exception "Unknow type")
  end.

(** [VConstrList.__getitem__].  The [slice] branch evaluates
    [self[key]], that is, calls the method again with the same key;
    [depth] is the number of nested calls the interpreter still
    allows before it raises [RecursionError]. *)
Fixpoint VConstrList_getitem (depth : nat) (key : key) : M value :=
  match depth with
  | O => raise RecursionError
  | S depth' =>
    match key with
    | KStr name => constr_by_name name
    | KInt i =>
      let* c := new_handle KConstr i in
      ret (VHandle c)
    | KSlice _ => VConstrList_getitem depth' key
    | KOther => raise (Exception "Use int or string as key")
    end
  end.

(** [VConstrList.__len__] *)
Definition VConstrList_len : M Z := solver_ask num_rows.


(** ** Sequences of operations *)

(** The arguments of one [VarList.add] call. *)
Record var_args : Type := mkVarArgs {
  va_name : string;
  va_lb : float;
  va_ub : float;
  va_obj : float;
  va_type : string;
  va_column : option Column
}.

Definition VarList_add_args (a : var_args) : M ref :=
  VarList_add (va_name a) (va_lb a) (va_ub a) (va_obj a) (va_type a) (va_column a).

(** Successive [add] calls, collecting the handles they return. *)
Fixpoint add_vars (args : list var_args) : M (list ref) :=
  match args with
  | [] => ret []
  | a :: rest =>
    let* v := VarList_add_args a in
    let* vs := add_vars rest in
    ret (v :: vs)
  end.

Fixpoint add_constrs (args : list (LinExpr * string)) : M (list ref) :=
  match args with
  | [] => ret []
  | a :: rest =>
    let* c := ConstrList_add a.1 a.2 in
    let* cs := add_constrs rest in
    ret (c :: cs)
  end.

(** One [add] or [remove] call on one of the two caching collections
    of the model. *)
Inductive op : Type :=
  | op_add_var (a : var_args)
  | op_add_constr (lin_expr : LinExpr) (name : string)
  | op_remove_vars (handles : list ref)
  | op_remove_constrs (handles : list ref).

Definition exec (o : op) : M unit :=
  match o with
  | op_add_var a => VarList_add_args a ;; ret tt
  | op_add_constr lin_expr name => ConstrList_add lin_expr name ;; ret tt
  | op_remove_vars handles => VarList_remove handles
  | op_remove_constrs handles => ConstrList_remove handles
  end.

(** The state after a sequence of calls; a call that raises leaves
    the state it reached and the caller goes on. *)
Fixpoint run (ops : list op) (st : State) : State :=
  match ops with
  | [] => st
  | o :: rest => run rest (exec o st).2
  end.

(** A model whose two collections are empty (as after
    [VarList(model)] and [ConstrList(model)]), whatever the solver
    holds and whatever handle objects exist elsewhere. *)
Definition empty_model (s : Solver) (var_objs constr_objs : list Z) : State :=
  mkState s var_objs constr_objs [] [].

(** The removal call that the collection of kind [k] issues. *)
Definition remove_call (k : kind) (positions : list Z) : call :=
  match k with
  | KVar => remove_vars_call positions
  | KConstr => remove_constrs_call positions
  end.

(** ** Specification vocabulary *)

(** The index invariant of a caching collection:
    [sequence[i].idx == i] at every position. *)
Definition indexed (k : kind) (st : State) : Prop :=
  forall (i : nat) (v : ref),
    seq_of k st !! i = Some v -> idx_of k st !! v = Some (Z.of_nat i).

(** Whether the handle [v], read in the store [h], has its slot of
    the bitmap [iv] still set. *)
Definition keep (h iv : list Z) (v : ref) : bool :=
  match h !! v with
  | Some j =>
    match py_getitem iv j with
    | Some flag => bool_decide (flag <> 0)
    | None => false
    end
  | None => false
  end.

(** The last call received by the solver. *)
Definition last_call (st : State) : option call := last (calls (solver st)).

(** ** Concrete scenarios *)

(** The arguments of [add()] called with its defaults only. *)
Definition default_var : var_args :=
  mkVarArgs "" float_0 INF float_0 CONTINUOUS None.

(** Five variables [x0 .. x4] added to a new model; the handle
    [xi] is the reference [i]. *)
Definition five_vars : State :=
  (add_vars (replicate 5 default_var) (empty_model (mkSolver [] 0 0) [] [])).2.

(** [five_vars] after [remove([x1, x3])]: [x1] and [x3] are detached. *)
Definition three_vars : State := (VarList_remove [1; 3]%nat five_vars).2.

(** [five_vars] after [update_vars(2)]: the sequence holds two new
    handles (the references 5 and 6); [x0 .. x4] still exist, with
    their former indices. *)
Definition rebuilt_two : State := (VarList_update_vars 2 five_vars).2.

(** A name resolver that finds nothing. *)
Definition no_name : string -> M value := fun _ => ret VNone.

(** [five_vars] after the lookup [VVarList(model, 0, 5)[0]], which
    makes a second handle (the reference [5]) for the entity of
    [x0]. *)
Definition five_vars_alias : State :=
  (VVarList_getitem (mkVVarList (Some 0) (Some 5)) (KInt 0) five_vars).2.


(** ** Python subscripts: examples *)

Example py_getitem_last : py_getitem [10; 20; 30] (-1) = Some 30.
Proof. reflexivity. Qed.

Example py_getitem_out : py_getitem [10; 20; 30] 3 = None.
Proof. reflexivity. Qed.

Example py_slice_ex1 :
  py_slice [0; 1; 2; 3; 4] (mkSlice (Some 1) (Some (-1)) None) = Some [1; 2; 3].
Proof. reflexivity. Qed.

Example py_slice_ex2 :
  py_slice [0; 1; 2; 3; 4] (mkSlice None None (Some (-2))) = Some [4; 2; 0].
Proof. reflexivity. Qed.

(** ** State bookkeeping *)

Lemma set_idx_same k st : set_idx k (idx_of k st) st = st.
Proof. by destruct k, st. Qed.

Lemma set_idx_twice k h1 h2 st : set_idx k h2 (set_idx k h1 st) = set_idx k h2 st.
Proof. by destruct k. Qed.

Lemma idx_of_set_idx k h st : idx_of k (set_idx k h st) = h.
Proof. by destruct k. Qed.

Lemma seq_of_set_idx k k' h st : seq_of k (set_idx k' h st) = seq_of k st.
Proof. by destruct k, k'. Qed.

Lemma idx_of_set_solver k s st : idx_of k (set_solver s st) = idx_of k st.
Proof. by destruct k. Qed.

Lemma seq_of_set_solver k s st : seq_of k (set_solver s st) = seq_of k st.
Proof. by destruct k. Qed.

Lemma seq_of_set_seq k l st : seq_of k (set_seq k l st) = l.
Proof. by destruct k. Qed.

Lemma idx_of_set_seq k k' l st : idx_of k (set_seq k' l st) = idx_of k st.
Proof. by destruct k, k'. Qed.

(** ** Python subscripts *)

Lemma py_index_lt n j p : py_index n j = Some p -> (p < n)%nat.
Proof.
  unfold py_index. repeat case_bool_decide; intros; simplify_eq; lia.
Qed.

Lemma py_index_nat n (t : nat) : (t < n)%nat -> py_index n (Z.of_nat t) = Some t.
Proof.
  intros Ht. unfold py_index. rewrite bool_decide_true by lia.
  by rewrite Nat2Z.id.
Qed.

Lemma py_index_minus_one n : (0 < n)%nat -> py_index n (-1) = Some (pred n).
Proof.
  intros Hn. unfold py_index.
  rewrite bool_decide_false by lia. rewrite bool_decide_true by lia.
  f_equal. lia.
Qed.

Lemma py_getitem_nat {A} (l : list A) (t : nat) :
  (t < length l)%nat -> py_getitem l (Z.of_nat t) = l !! t.
Proof. intros Ht. unfold py_getitem. by rewrite py_index_nat. Qed.

(** ** The marking loop *)

Lemma mark_length vl : forall iv iv', mark iv vl = Some iv' -> length iv' = length iv.
Proof.
  induction vl as [|j vl IH]; intros iv iv' Hm; simpl in Hm.
  - by simplify_eq.
  - unfold py_setitem in Hm.
    destruct (py_index (length iv) j) as [p|]; simpl in Hm; [|done].
    apply IH in Hm. by rewrite length_insert in Hm.
Qed.

Lemma mark_zero_stays vl p :
  forall iv iv', mark iv vl = Some iv' -> iv !! p = Some 0 -> iv' !! p = Some 0.
Proof.
  induction vl as [|j vl IH]; intros iv iv' Hm Hp; simpl in Hm.
  - by simplify_eq.
  - unfold py_setitem in Hm.
    destruct (py_index (length iv) j) as [q|] eqn:Hq; simpl in Hm; [|done].
    apply (IH _ _ Hm).
    destruct (decide (q = p)) as [->|Hne].
    + apply list_lookup_insert_eq. by eapply py_index_lt.
    + by rewrite list_lookup_insert_ne.
Qed.

Lemma mark_hit vl j p :
  forall iv iv', mark iv vl = Some iv' -> j ∈ vl ->
    py_index (length iv) j = Some p -> iv' !! p = Some 0.
Proof.
  induction vl as [|j' vl IH]; intros iv iv' Hm Hin Hp; simpl in Hm.
  - by apply elem_of_nil in Hin.
  - unfold py_setitem in Hm.
    destruct (py_index (length iv) j') as [q|] eqn:Hq; simpl in Hm; [|done].
    apply elem_of_cons in Hin as [->|Hin].
    + simplify_eq. apply (mark_zero_stays _ _ _ _ Hm).
      apply list_lookup_insert_eq. by eapply py_index_lt.
    + apply (IH _ _ Hm Hin). by rewrite length_insert.
Qed.

Lemma mark_miss vl p :
  forall iv iv', mark iv vl = Some iv' ->
    (forall j, j ∈ vl -> py_index (length iv) j <> Some p) -> iv' !! p = iv !! p.
Proof.
  induction vl as [|j' vl IH]; intros iv iv' Hm Hno; simpl in Hm.
  - by simplify_eq.
  - unfold py_setitem in Hm.
    destruct (py_index (length iv) j') as [q|] eqn:Hq; simpl in Hm; [|done].
    rewrite (IH _ _ Hm).
    + apply list_lookup_insert_ne. intros ->.
      apply (Hno j'); [by left|done].
    + intros j Hj. rewrite length_insert. apply Hno. by right.
Qed.

Lemma mark_in_range vl :
  forall iv, (forall j, j ∈ vl -> is_Some (py_index (length iv) j)) ->
    is_Some (mark iv vl).
Proof.
  induction vl as [|j vl IH]; intros iv Hall; simpl.
  - by eexists.
  - unfold py_setitem.
    destruct (Hall j) as [p Hp]; [by left|]. rewrite Hp. simpl.
    apply IH. intros j' Hj'. rewrite length_insert. apply Hall. by right.
Qed.


(** ** Reading the handles *)

Lemma read_all_state k vs st : (read_all k vs st).2 = st.
Proof.
  induction vs as [|v vs IH]; simpl; [done|].
  unfold bind, read_idx, or_raise.
  destruct (idx_of k st !! v) as [j|]; simpl; [|done].
  destruct (read_all k vs st) as [[l|e] st']; simpl in *; by subst.
Qed.

Lemma read_all_ok k vs st :
  (forall v, v ∈ vs -> is_Some (idx_of k st !! v)) ->
  exists vl, read_all k vs st = (Ok vl, st) /\
    (forall j, j ∈ vl <-> exists v, v ∈ vs /\ idx_of k st !! v = Some j) /\
    length vl = length vs.
Proof.
  induction vs as [|v vs IH]; intros Hall; simpl.
  - exists []. split; [done|]. split; [|done].
    intros j. split; [by intros ?%elem_of_nil|].
    by intros (v & ?%elem_of_nil & _).
  - destruct (Hall v) as [j Hj]; [by left|].
    destruct IH as (vl & Hrun & Hmem & Hlen); [intros; apply Hall; by right|].
    exists (j :: vl). unfold bind, read_idx, or_raise. rewrite Hj. simpl.
    rewrite Hrun. simpl. split; [done|]. split; [|by rewrite Hlen].
    intros j'. rewrite elem_of_cons, Hmem. split.
    + intros [->|(u & Hu & Hju)]; [exists v|exists u]; split; try done;
        [by left|by right].
    + intros (u & [->|Hu]%elem_of_cons & Hju); [left; congruence|right; eauto].
Qed.

Lemma read_all_fail k vs st e st' :
  read_all k vs st = (Raise e, st') -> e = NoObject /\ st' = st.
Proof.
  intros Hrun. split; [|by rewrite <- (read_all_state k vs st), Hrun].
  revert e st' Hrun. induction vs as [|v vs IH]; intros e st' Hrun; simpl in Hrun.
  - discriminate.
  - unfold bind, read_idx, or_raise in Hrun.
    destruct (idx_of k st !! v) as [j|]; simpl in Hrun; [|by simplify_eq].
    destruct (read_all k vs st) as [[l|e'] st''] eqn:Hvs; simpl in Hrun;
      [discriminate|]. simplify_eq. by eapply IH.
Qed.

(** ** The reindexing loop *)

Lemma keep_insert_ne h iv v u x : v <> u -> keep (<[v := x]> h) iv u = keep h iv u.
Proof. intros Hne. unfold keep. by rewrite list_lookup_insert_ne. Qed.

Lemma filter_keep_insert h iv v x (vs : list ref) :
  v ∉ vs ->
  filter (fun u => keep (<[v := x]> h) iv u) vs = filter (fun u => keep h iv u) vs.
Proof.
  induction vs as [|u vs IH]; intros Hv; [done|].
  apply not_elem_of_cons in Hv as [Hne Hv].
  rewrite !filter_cons, keep_insert_ne, IH by done. done.
Qed.

Lemma reindex_run k iv vs :
  forall i st,
    NoDup vs ->
    (forall v, v ∈ vs ->
       exists j, idx_of k st !! v = Some j /\ is_Some (py_getitem iv j)) ->
    exists h',
      reindex k iv vs i st = (Ok tt, set_idx k h' st) /\
      length h' = length (idx_of k st) /\
      (forall v, v ∉ vs -> h' !! v = idx_of k st !! v) /\
      (forall v, v ∈ vs -> keep (idx_of k st) iv v = false -> h' !! v = Some (-1)) /\
      (forall (m : nat) v,
         filter (fun u => keep (idx_of k st) iv u) vs !! m = Some v ->
         h' !! v = Some (i + Z.of_nat m)).
Proof.
  induction vs as [|v vs IH]; intros i st Hnd Hall.
  - exists (idx_of k st). simpl. unfold ret. rewrite set_idx_same.
    repeat split; try done. by intros v ?%elem_of_nil.
  - apply NoDup_cons in Hnd as [Hv Hnd].
    destruct (Hall v) as (j & Hj & flag & Hflag); [by left|].
    assert (Hlt : (v < length (idx_of k st))%nat) by by eapply lookup_lt_Some.
    assert (Hkeep : keep (idx_of k st) iv v = bool_decide (flag <> 0))
      by (unfold keep; by rewrite Hj, Hflag).
    set (x := if bool_decide (flag = 0) then -1 else i).
    set (i' := if bool_decide (flag = 0) then i else i + 1).
    destruct (IH i' (set_idx k (<[v := x]> (idx_of k st)) st) Hnd)
      as (h' & Hrun & Hlen & Hout & Hdead & Hlive).
    { intros u Hu. rewrite idx_of_set_idx.
      rewrite list_lookup_insert_ne by (intros ->; done).
      apply Hall. by right. }
    rewrite idx_of_set_idx in Hlen, Hout, Hdead, Hlive.
    rewrite length_insert in Hlen. rewrite set_idx_twice in Hrun.
    rewrite filter_keep_insert in Hlive by done.
    assert (Hv' : h' !! v = Some x).
    { rewrite Hout by done. by apply list_lookup_insert_eq. }
    exists h'. split; [|split; [done|split; [|split]]].
    + simpl. unfold bind at 1, read_idx, or_raise. rewrite Hj. simpl.
      unfold bind at 1. rewrite Hflag. simpl. subst x i'.
      case_bool_decide; unfold bind, write_idx;
        rewrite bool_decide_true by done; simpl; exact Hrun.
    + intros u Hu. apply not_elem_of_cons in Hu as [Hne Hu].
      rewrite Hout by done. by apply list_lookup_insert_ne.
    + intros u [->|Hu]%elem_of_cons Hk.
      * rewrite Hv'. subst x. rewrite Hkeep in Hk.
        apply bool_decide_eq_false in Hk.
        rewrite bool_decide_true; [done|]. by destruct (decide (flag = 0)).
      * apply Hdead; [done|]. rewrite keep_insert_ne; [done|]. by intros ->.
    + intros m u. rewrite filter_cons, Hkeep. subst x i'.
      case_bool_decide as Hf.
      * rewrite decide_False; [apply Hlive|].
        intros Hb%bool_decide_unpack. done.
      * rewrite decide_True by by apply bool_decide_pack.
        destruct m as [|m]; simpl.
        -- intros ?; simplify_eq. rewrite Hv'. f_equal. lia.
        -- intros Hm. rewrite (Hlive _ _ Hm). f_equal. lia.
Qed.


(** ** The final comprehension *)

Lemma filter_ext_elem {A} (P Q : A -> Prop)
    `{!forall x, Decision (P x), !forall x, Decision (Q x)} (l : list A) :
  (forall x, x ∈ l -> P x <-> Q x) -> filter P l = filter Q l.
Proof.
  induction l as [|x l IH]; intros Hext; [done|].
  rewrite !filter_cons, IH by (intros; apply Hext; by right).
  apply decide_ext, Hext. by left.
Qed.

Lemma still_indexed_run k vs st :
  (forall v, v ∈ vs -> is_Some (idx_of k st !! v)) ->
  still_indexed k vs st =
    (Ok (filter (fun v => idx_of k st !! v <> Some (-1)) vs), st).
Proof.
  induction vs as [|v vs IH]; intros Hall; simpl; [done|].
  destruct (Hall v) as [j Hj]; [by left|].
  unfold bind, read_idx, or_raise. rewrite Hj. simpl.
  rewrite IH by (intros; apply Hall; by right). simpl. unfold ret.
  rewrite filter_cons, Hj. repeat f_equal.
  case_bool_decide as Hd.
  - rewrite decide_True; [done|]. congruence.
  - rewrite decide_False; [done|]. subst. by intros [].
Qed.

(** ** One call of [remove] on a collection that satisfies the invariant *)

Lemma indexed_NoDup k st : indexed k st -> NoDup (seq_of k st).
Proof.
  intros Hinv. apply NoDup_alt. intros i j v Hi Hj.
  apply Hinv in Hi, Hj. rewrite Hi in Hj. simplify_eq. lia.
Qed.

Lemma remove_run k hs st vl iv :
  indexed k st ->
  read_all k hs st = (Ok vl, st) ->
  mark (replicate (length (seq_of k st)) 1) (merge_sort Z.le vl) = Some iv ->
  exists h',
    caching_remove k hs st =
      (Ok tt,
       set_seq k (filter (fun v => keep (idx_of k st) iv v) (seq_of k st))
         (set_idx k h'
            (set_solver (solver_remove k (merge_sort Z.le vl) (solver st)) st))) /\
    length h' = length (idx_of k st) /\
    (forall v, v ∉ seq_of k st -> h' !! v = idx_of k st !! v) /\
    (forall v, v ∈ seq_of k st -> keep (idx_of k st) iv v = false ->
       h' !! v = Some (-1)) /\
    (forall (m : nat) v,
       filter (fun u => keep (idx_of k st) iv u) (seq_of k st) !! m = Some v ->
       h' !! v = Some (Z.of_nat m)).
Proof.
  intros Hinv Hread Hmark.
  set (st1 := set_solver (solver_remove k (merge_sort Z.le vl) (solver st)) st).
  assert (Hiv : length iv = length (seq_of k st)).
  { apply mark_length in Hmark. by rewrite length_replicate in Hmark. }
  destruct (reindex_run k iv (seq_of k st) 0 st1) as (h' & Hrun & Hlen & Hout & Hdead & Hlive).
  { by apply indexed_NoDup. }
  { intros v [t Ht]%list_elem_of_lookup_1. exists (Z.of_nat t).
    subst st1. rewrite idx_of_set_solver. split; [by apply Hinv|].
    apply lookup_lt_Some in Ht as Hlt.
    rewrite py_getitem_nat by lia. apply lookup_lt_is_Some. lia. }
  subst st1. rewrite idx_of_set_solver in Hlen, Hout, Hdead, Hlive.
  exists h'. split; [|split; [done|split; [done|split; [done|]]]].
  - unfold caching_remove, bind at 1, get_seq.
    unfold bind at 1. rewrite Hread.
    unfold bind at 1. rewrite Hmark. simpl.
    unfold bind at 1, solver_do.
    unfold bind at 1. rewrite seq_of_set_solver.
    unfold bind at 1. rewrite Hrun.
    unfold bind at 1. rewrite seq_of_set_idx, seq_of_set_solver.
    unfold bind. rewrite still_indexed_run.
    + unfold put_seq. do 2 f_equal. rewrite idx_of_set_idx.
      apply filter_ext_elem. intros v Hv.
      destruct (keep (idx_of k st) iv v) eqn:Hk.
      * assert (Hin : v ∈ filter (fun u => keep (idx_of k st) iv u) (seq_of k st)).
        { apply list_elem_of_filter. split; [by rewrite Hk|done]. }
        apply list_elem_of_lookup_1 in Hin as [m Hm].
        apply Hlive in Hm. rewrite Hm. split; [done|].
        intros _ ?. simplify_eq; lia.
      * rewrite (Hdead v Hv Hk). split; [done|]. by intros [].
    + intros v Hv. rewrite idx_of_set_idx. apply lookup_lt_is_Some.
      rewrite Hlen. apply list_elem_of_lookup_1 in Hv as [t Ht].
      apply Hinv in Ht. by eapply lookup_lt_Some.
  - intros m v Hm. by rewrite (Hlive m v Hm).
Qed.


(** ** [add] keeps the invariant *)

Lemma indexed_other k st st' :
  seq_of k st' = seq_of k st -> idx_of k st' = idx_of k st ->
  indexed k st -> indexed k st'.
Proof. unfold indexed. intros -> ->. done. Qed.

Lemma indexed_push k st st' :
  seq_of k st' = seq_of k st ++ [length (idx_of k st)] ->
  idx_of k st' = idx_of k st ++ [Z.of_nat (length (seq_of k st))] ->
  indexed k st -> indexed k st'.
Proof.
  unfold indexed. intros -> -> Hinv i v Hi.
  destruct (decide (i < length (seq_of k st))%nat) as [Hlt|Hge].
  - rewrite lookup_app_l in Hi by done. apply Hinv in Hi as Hv.
    rewrite lookup_app_l; [done|]. by eapply lookup_lt_Some.
  - apply lookup_lt_Some in Hi as Hlen. rewrite length_app in Hlen. simpl in Hlen.
    assert (i = length (seq_of k st)) as -> by lia.
    rewrite list_lookup_middle in Hi by done. simplify_eq.
    by rewrite list_lookup_middle.
Qed.

Lemma VarList_add_run name lb ub obj var_type column st :
  exists name' lb' ub',
    VarList_add name lb ub obj var_type column st =
      (Ok (length (var_idx st)),
       mkState (add_var obj lb' ub' var_type column name' (solver st))
         (var_idx st ++ [Z.of_nat (length (vars st))]) (constr_idx st)
         (vars st ++ [length (var_idx st)]) (constrs st)) /\
    (var_type = BINARY -> lb' = float_0 /\ ub' = float_1).
Proof.
  exists (if String.eqb name "" then format_name "var" (Z.of_nat (length (vars st)))
          else name),
    (if String.eqb var_type BINARY then float_0 else lb),
    (if String.eqb var_type BINARY then float_1 else ub).
  split; [reflexivity|].
  intros ->. by rewrite String.eqb_refl.
Qed.

Lemma ConstrList_add_run lin_expr name st :
  exists name',
    ConstrList_add lin_expr name st =
      (Ok (length (constr_idx st)),
       mkState (add_constr lin_expr name' (solver st))
         (var_idx st) (constr_idx st ++ [Z.of_nat (length (constrs st))])
         (vars st) (constrs st ++ [length (constr_idx st)])).
Proof.
  exists (if String.eqb name "" then format_name "constr" (Z.of_nat (length (constrs st)))
          else name).
  reflexivity.
Qed.

Lemma VarList_add_indexed a st k :
  indexed k st -> indexed k (VarList_add_args a st).2.
Proof.
  unfold VarList_add_args.
  destruct (VarList_add_run (va_name a) (va_lb a) (va_ub a) (va_obj a)
              (va_type a) (va_column a) st) as (n & l & u & -> & _).
  destruct k; [by apply indexed_push|by apply indexed_other].
Qed.

Lemma ConstrList_add_indexed lin_expr name st k :
  indexed k st -> indexed k (ConstrList_add lin_expr name st).2.
Proof.
  destruct (ConstrList_add_run lin_expr name st) as (n & ->).
  destruct k; [by apply indexed_other|by apply indexed_push].
Qed.


(** ** [remove] keeps the invariant, whatever handles it is given *)

Lemma remove_raises_early k hs st :
  (exists e, read_all k hs st = (Raise e, st)) \/
  (exists vl, read_all k hs st = (Ok vl, st) /\
     mark (replicate (length (seq_of k st)) 1) (merge_sort Z.le vl) = None) ->
  exists e, caching_remove k hs st = (Raise e, st).
Proof.
  intros [[e He]|(vl & Hvl & Hmark)].
  - exists e. unfold caching_remove, bind at 1, get_seq.
    unfold bind at 1. by rewrite He.
  - exists IndexError. unfold caching_remove, bind at 1, get_seq.
    unfold bind at 1. rewrite Hvl.
    unfold bind at 1. by rewrite Hmark.
Qed.

Lemma remove_indexed k hs st k' :
  indexed k st -> indexed k' st -> indexed k' (caching_remove k hs st).2.
Proof.
  intros Hk Hk'.
  destruct (read_all k hs st) as [[vl|e] st1] eqn:Hread.
  - assert (st1 = st) as -> by by rewrite <- (read_all_state k hs st), Hread.
    destruct (mark (replicate (length (seq_of k st)) 1) (merge_sort Z.le vl))
      as [iv|] eqn:Hmark.
    + destruct (remove_run k hs st vl iv Hk Hread Hmark)
        as (h' & -> & _ & _ & _ & Hlive). simpl.
      destruct k, k'; simpl; first [exact Hlive | exact Hk'].
    + destruct (remove_raises_early k hs st) as [e ->]; [|done].
      right. by exists vl.
  - apply read_all_fail in Hread as Hst. destruct Hst as [-> ->].
    destruct (remove_raises_early k hs st) as [e ->]; [|done].
    left. by exists NoObject.
Qed.

Lemma exec_indexed o st :
  (forall k, indexed k st) -> forall k, indexed k (exec o st).2.
Proof.
  intros Hinv k. destruct o as [a|e n|hs|hs]; cbn [exec].
  - unfold bind. pose proof (VarList_add_indexed a st k (Hinv k)) as H.
    by destruct (VarList_add_args a st) as [[v|e] st'].
  - unfold bind. pose proof (ConstrList_add_indexed e n st k (Hinv k)) as H.
    by destruct (ConstrList_add e n st) as [[v|e'] st'].
  - by apply remove_indexed.
  - by apply remove_indexed.
Qed.

Lemma run_indexed ops :
  forall st, (forall k, indexed k st) -> forall k, indexed k (run ops st).
Proof.
  induction ops as [|o ops IH]; intros st Hinv; simpl; [done|].
  apply IH. by apply exec_indexed.
Qed.

Lemma empty_model_indexed s vh ch k : indexed k (empty_model s vh ch).
Proof. intros i v Hi. by destruct k. Qed.

(** ** Successive additions *)

Lemma add_vars_run args :
  forall st, exists rs st',
    add_vars args st = (Ok rs, st') /\
    vars st' = vars st ++ rs /\
    length rs = length args /\
    (indexed KVar st -> indexed KVar st').
Proof.
  induction args as [|a args IH]; intros st; simpl.
  - exists [], st. by rewrite app_nil_r.
  - pose proof (VarList_add_indexed a st KVar) as Hstep.
    unfold VarList_add_args in *.
    destruct (VarList_add_run (va_name a) (va_lb a) (va_ub a) (va_obj a)
                (va_type a) (va_column a) st) as (n & l & u & Hadd & _).
    rewrite Hadd in Hstep. simpl in Hstep.
    match type of Hadd with _ = (_, ?s) =>
      destruct (IH s) as (rs & st' & Hrun & Hseq & Hlen & Hinv) end.
    unfold bind. rewrite Hadd. cbv beta iota. rewrite Hrun. simpl in Hseq.
    exists (length (var_idx st) :: rs), st'.
    split; [done|]. split; [by rewrite Hseq, <- app_assoc|].
    split; [simpl; by rewrite Hlen|]. auto.
Qed.

Lemma add_constrs_run args :
  forall st, exists rs st',
    add_constrs args st = (Ok rs, st') /\
    constrs st' = constrs st ++ rs /\
    length rs = length args /\
    (indexed KConstr st -> indexed KConstr st').
Proof.
  induction args as [|a args IH]; intros st; simpl.
  - exists [], st. by rewrite app_nil_r.
  - pose proof (ConstrList_add_indexed a.1 a.2 st KConstr) as Hstep.
    destruct (ConstrList_add_run a.1 a.2 st) as (n & Hadd).
    rewrite Hadd in Hstep. simpl in Hstep.
    match type of Hadd with _ = (_, ?s) =>
      destruct (IH s) as (rs & st' & Hrun & Hseq & Hlen & Hinv) end.
    unfold bind. rewrite Hadd. cbv beta iota. rewrite Hrun. simpl in Hseq.
    exists (length (constr_idx st) :: rs), st'.
    split; [done|]. split; [by rewrite Hseq, <- app_assoc|].
    split; [simpl; by rewrite Hlen|]. auto.
Qed.

Lemma add_vars_indexed args st :
  indexed KVar st -> indexed KVar (add_vars args st).2.
Proof.
  destruct (add_vars_run args st) as (rs & st' & -> & _ & _ & Hinv). exact Hinv.
Qed.

Lemma five_vars_indexed : indexed KVar five_vars.
Proof. apply add_vars_indexed, empty_model_indexed. Qed.

Lemma three_vars_indexed : indexed KVar three_vars.
Proof. apply remove_indexed; apply five_vars_indexed. Qed.

(** C2.  Starting from empty collections, after any sequence of
    [add] and [remove] calls on the two caching collections (the
    [remove] calls with arbitrary handles, raising or not), every
    cached handle's [idx] equals its position in the sequence and
    [len] is the size of the sequence.  When only [add] is called,
    the i-th handle returned has index [i] and [len] is the number
    of calls. *)
Theorem caching_index_invariant :
  (forall (s : Solver) (var_objs constr_objs : list Z) (ops : list op) (k : kind),
     let st := run ops (empty_model s var_objs constr_objs) in
     indexed k st /\
     caching_len k st = (Ok (Z.of_nat (length (seq_of k st))), st)) /\
  (forall (s : Solver) (var_objs constr_objs : list Z) (args : list var_args),
     exists rs st,
       add_vars args (empty_model s var_objs constr_objs) = (Ok rs, st) /\
       (forall (i : nat) v, rs !! i = Some v -> var_idx st !! v = Some (Z.of_nat i)) /\
       VarList_len st = (Ok (Z.of_nat (length args)), st)) /\
  (forall (s : Solver) (var_objs constr_objs : list Z) (args : list (LinExpr * string)),
     exists rs st,
       add_constrs args (empty_model s var_objs constr_objs) = (Ok rs, st) /\
       (forall (i : nat) c, rs !! i = Some c -> constr_idx st !! c = Some (Z.of_nat i)) /\
       ConstrList_len st = (Ok (Z.of_nat (length args)), st)).
Proof.
  split; [|split].
  - intros s vh ch ops k st. split; [|done].
    apply run_indexed. apply empty_model_indexed.
  - intros s vh ch args.
    destruct (add_vars_run args (empty_model s vh ch))
      as (rs & st & Hrun & Hseq & Hlen & Hinv).
    exists rs, st. simpl in Hseq. split; [done|]. split.
    + intros i v Hi. apply (Hinv (empty_model_indexed s vh ch KVar)).
      simpl. by rewrite Hseq.
    + unfold VarList_len, caching_len, bind, get_seq, ret. simpl.
      by rewrite Hseq, Hlen.
  - intros s vh ch args.
    destruct (add_constrs_run args (empty_model s vh ch))
      as (rs & st & Hrun & Hseq & Hlen & Hinv).
    exists rs, st. simpl in Hseq. split; [done|]. split.
    + intros i v Hi. apply (Hinv (empty_model_indexed s vh ch KConstr)).
      simpl. by rewrite Hseq.
    + unfold ConstrList_len, caching_len, bind, get_seq, ret. simpl.
      by rewrite Hseq, Hlen.
Qed.


(** ** Removing live handles *)

Lemma length_filter_not_in (S l : list ref) :
  NoDup l -> NoDup S -> S ⊆ l ->
  length (filter (fun v => v ∉ S) l) = (length l - length S)%nat.
Proof.
  intros Hl HS Hsub.
  pose proof (filter_app_complement (fun v => v ∈ S) l) as Hperm.
  apply Permutation_length in Hperm. rewrite length_app in Hperm.
  assert (HSl : filter (fun v => v ∈ S) l ≡ₚ S).
  { apply NoDup_Permutation; [by apply NoDup_filter|done|].
    intros v. rewrite list_elem_of_filter. split; [by intros []|auto]. }
  apply Permutation_length in HSl. lia.
Qed.

Lemma keep_iff_not_removed k st S vl iv :
  indexed k st -> S ⊆ seq_of k st ->
  (forall j, j ∈ vl <-> exists v, v ∈ S /\ idx_of k st !! v = Some j) ->
  mark (replicate (length (seq_of k st)) 1) (merge_sort Z.le vl) = Some iv ->
  forall v, v ∈ seq_of k st -> keep (idx_of k st) iv v <-> v ∉ S.
Proof.
  intros Hinv Hsub Hvl Hmark v [t Ht]%list_elem_of_lookup_1.
  apply lookup_lt_Some in Ht as Hlt.
  assert (Hiv : length iv = length (seq_of k st)).
  { apply mark_length in Hmark. by rewrite length_replicate in Hmark. }
  unfold keep. rewrite (Hinv _ _ Ht), py_getitem_nat by lia.
  destruct (decide (v ∈ S)) as [Hin|Hout].
  - rewrite (mark_hit _ (Z.of_nat t) t _ _ Hmark).
    + rewrite bool_decide_false by (intros ?; done). split; [done|by intros []].
    + rewrite merge_sort_Permutation. apply Hvl. exists v. split; [done|by apply Hinv].
    + rewrite length_replicate. by apply py_index_nat.
  - rewrite (mark_miss _ t _ _ Hmark).
    + rewrite lookup_replicate_2 by done. by rewrite bool_decide_true.
    + intros j Hj Hp. rewrite merge_sort_Permutation in Hj.
      apply Hvl in Hj as (u & Hu & Hju).
      destruct (list_elem_of_lookup_1 _ _ (Hsub _ Hu)) as [t' Ht'].
      apply lookup_lt_Some in Ht' as Hlt'.
      rewrite (Hinv _ _ Ht') in Hju. simplify_eq.
      rewrite length_replicate, py_index_nat in Hp by done.
      by simplify_eq.
Qed.

(** C1.  On a caching collection that satisfies the index invariant,
    [remove] of a duplicate-free list [S] of cached handles returns
    normally; afterwards every handle of [S] has index [-1], the
    sequence consists of the other handles in their former order,
    the handle at position [i] has index [i], and [len] is the
    former length minus the length of [S]. *)
Theorem remove_compacts (k : kind) (st : State) (S : list ref) :
  indexed k st -> NoDup S -> S ⊆ seq_of k st ->
  exists st',
    caching_remove k S st = (Ok tt, st') /\
    (forall v, v ∈ S -> idx_of k st' !! v = Some (-1)) /\
    seq_of k st' = filter (fun v => v ∉ S) (seq_of k st) /\
    (forall (i : nat) v,
       seq_of k st' !! i = Some v -> idx_of k st' !! v = Some (Z.of_nat i)) /\
    caching_len k st' =
      (Ok (Z.of_nat (length (seq_of k st)) - Z.of_nat (length S)), st').
Proof.
  intros Hinv HS Hsub.
  destruct (read_all_ok k S st) as (vl & Hread & Hvl & _).
  { intros v [t Ht]%Hsub%list_elem_of_lookup_1. rewrite (Hinv _ _ Ht). by eexists. }
  destruct (mark_in_range (merge_sort Z.le vl)
              (replicate (length (seq_of k st)) 1)) as [iv Hmark].
  { intros j Hj. rewrite merge_sort_Permutation in Hj.
    apply Hvl in Hj as (u & [t Ht]%Hsub%list_elem_of_lookup_1 & Hju).
    rewrite (Hinv _ _ Ht) in Hju. simplify_eq.
    rewrite length_replicate, py_index_nat; [by eexists|].
    by eapply lookup_lt_Some. }
  destruct (remove_run k S st vl iv Hinv Hread Hmark)
    as (h' & Hrun & _ & _ & Hdead & Hlive).
  pose proof (keep_iff_not_removed k st S vl iv Hinv Hsub Hvl Hmark) as Hkeep.
  assert (Hseq : filter (fun v => keep (idx_of k st) iv v) (seq_of k st)
                 = filter (fun v => v ∉ S) (seq_of k st))
    by (by apply filter_ext_elem).
  eexists. split; [exact Hrun|].
  rewrite seq_of_set_seq, idx_of_set_seq, idx_of_set_idx.
  split; [|split; [done|split; [done|]]].
  - intros v Hv. apply Hdead; [by apply Hsub|].
    pose proof (Hkeep v (Hsub v Hv)) as [Hk _].
    destruct (keep (idx_of k st) iv v); [|done].
    exfalso. by apply Hk.
  - unfold caching_len, bind, get_seq, ret. rewrite seq_of_set_seq, Hseq.
    rewrite length_filter_not_in by (done || by apply indexed_NoDup).
    pose proof (submseteq_length _ _ (NoDup_submseteq _ _ HS Hsub)).
    do 2 f_equal. lia.
Qed.


(** ** Removing nothing *)

Lemma filter_all {A} (P : A -> Prop) `{!forall x, Decision (P x)} (l : list A) :
  (forall x, x ∈ l -> P x) -> filter P l = l.
Proof.
  induction l as [|x l IH]; intros Hall; [done|].
  rewrite filter_cons_True by (apply Hall; by left).
  f_equal. apply IH. intros; apply Hall; by right.
Qed.

Lemma remove_nothing k st :
  indexed k st ->
  exists st',
    caching_remove k [] st = (Ok tt, st') /\
    idx_of k st' = idx_of k st /\ seq_of k st' = seq_of k st.
Proof.
  intros Hinv.
  destruct (remove_run k [] st [] (replicate (length (seq_of k st)) 1) Hinv)
    as (h' & Hrun & Hlen & Hout & _ & Hlive); [done..|].
  assert (Hall : filter (fun v => keep (idx_of k st)
                   (replicate (length (seq_of k st)) 1) v) (seq_of k st)
                 = seq_of k st).
  { apply filter_all. intros v [t Ht]%list_elem_of_lookup_1.
    apply lookup_lt_Some in Ht as Hlt. unfold keep.
    rewrite (Hinv _ _ Ht), py_getitem_nat by (by rewrite length_replicate).
    by rewrite lookup_replicate_2. }
  rewrite Hall in Hrun, Hlive.
  eexists. split; [exact Hrun|].
  rewrite seq_of_set_seq, idx_of_set_seq, idx_of_set_idx. split; [|done].
  apply list_eq. intros v.
  destruct (decide (v ∈ seq_of k st)) as [[t Ht]%list_elem_of_lookup_1|Hv].
  - etrans; [apply (Hlive _ _ Ht)|symmetry; apply (Hinv _ _ Ht)].
  - by apply Hout.
Qed.

(** C9.  After [n] additions to an empty caching collection,
    [remove] with no handle returns normally and leaves the index
    of every handle, the cached sequence and [len] (equal to [n])
    as they were. *)
Theorem remove_empty_roundtrip :
  (forall (s : Solver) (var_objs constr_objs : list Z) (args : list var_args),
     exists rs st st',
       add_vars args (empty_model s var_objs constr_objs) = (Ok rs, st) /\
       VarList_len st = (Ok (Z.of_nat (length args)), st) /\
       VarList_remove [] st = (Ok tt, st') /\
       var_idx st' = var_idx st /\ vars st' = vars st /\
       VarList_len st' = (Ok (Z.of_nat (length args)), st')) /\
  (forall (s : Solver) (var_objs constr_objs : list Z) (args : list (LinExpr * string)),
     exists rs st st',
       add_constrs args (empty_model s var_objs constr_objs) = (Ok rs, st) /\
       ConstrList_len st = (Ok (Z.of_nat (length args)), st) /\
       ConstrList_remove [] st = (Ok tt, st') /\
       constr_idx st' = constr_idx st /\ constrs st' = constrs st /\
       ConstrList_len st' = (Ok (Z.of_nat (length args)), st')).
Proof.
  split; intros s vh ch args.
  - destruct (add_vars_run args (empty_model s vh ch))
      as (rs & st & Hrun & Hseq & Hlen & Hinv).
    destruct (remove_nothing KVar st) as (st' & Hrem & Hidx & Hvars).
    { apply Hinv, empty_model_indexed. }
    simpl in Hseq, Hidx, Hvars. exists rs, st, st'.
    unfold VarList_len, caching_len, bind, get_seq, ret. simpl.
    by rewrite Hvars, Hseq, Hlen.
  - destruct (add_constrs_run args (empty_model s vh ch))
      as (rs & st & Hrun & Hseq & Hlen & Hinv).
    destruct (remove_nothing KConstr st) as (st' & Hrem & Hidx & Hvars).
    { apply Hinv, empty_model_indexed. }
    simpl in Hseq, Hidx, Hvars. exists rs, st, st'.
    unfold ConstrList_len, caching_len, bind, get_seq, ret. simpl.
    by rewrite Hvars, Hseq, Hlen.
Qed.


(** ** Removing a detached handle *)

Lemma last_call_remove k positions l h st :
  last_call (set_seq k l (set_idx k h
    (set_solver (solver_remove k positions (solver st)) st)))
  = Some (remove_call k positions).
Proof. unfold last_call. destruct k; simpl; apply last_snoc. Qed.

(** C10.  On a caching collection of [n >= 1] handles that
    satisfies the index invariant, [remove] of one detached handle
    (index [-1]) passes the position [-1] to the solver's batch
    removal, clears the last slot of the bitmap, sets the index of
    the last cached handle to [-1] and drops it from the sequence,
    so that [len] becomes [n - 1]. *)
Theorem remove_detached_drops_last (k : kind) (st : State) (d : ref) :
  indexed k st -> seq_of k st <> [] -> idx_of k st !! d = Some (-1) ->
  exists st' front last_handle,
    seq_of k st = front ++ [last_handle] /\
    mark (replicate (length (seq_of k st)) 1) [-1]
      = Some (replicate (length front) 1 ++ [0]) /\
    caching_remove k [d] st = (Ok tt, st') /\
    last_call st' = Some (remove_call k [-1]) /\
    idx_of k st' !! last_handle = Some (-1) /\
    seq_of k st' = front /\
    caching_len k st' = (Ok (Z.of_nat (length (seq_of k st)) - 1), st').
Proof.
  intros Hinv Hne Hd.
  destruct (last (seq_of k st)) as [x|] eqn:Hlast;
    [|by apply last_None in Hlast].
  apply last_Some in Hlast as [front Hseq].
  assert (Hn : length (seq_of k st) = S (length front))
    by (rewrite Hseq, length_app; simpl; lia).
  set (iv := replicate (length front) 1 ++ [0]).
  assert (Hmark : mark (replicate (length (seq_of k st)) 1) [-1] = Some iv).
  { rewrite Hn, replicate_S_end. unfold mark, py_setitem.
    rewrite length_app, length_replicate, py_index_minus_one by (simpl; lia).
    simpl. f_equal.
    rewrite insert_app_r_alt by (rewrite length_replicate; lia).
    rewrite length_replicate.
    by replace (pred (length front + 1) - length front)%nat with 0%nat by lia. }
  assert (Hread : read_all k [d] st = (Ok [-1], st)).
  { simpl. unfold bind, read_idx, or_raise. by rewrite Hd. }
  destruct (remove_run k [d] st [-1] iv Hinv Hread Hmark)
    as (h' & Hrun & _ & _ & Hdead & _).
  assert (Hx : keep (idx_of k st) iv x = false).
  { unfold keep. rewrite (Hinv (length front) x), py_getitem_nat.
    - subst iv. by rewrite list_lookup_middle by by rewrite length_replicate.
    - subst iv. rewrite length_app, length_replicate. simpl. lia.
    - rewrite Hseq. by apply list_lookup_middle. }
  assert (Hfilter : filter (fun v => keep (idx_of k st) iv v) (seq_of k st) = front).
  { rewrite Hseq. rewrite filter_app, filter_cons_False, filter_nil, app_nil_r
      by (cbv beta; rewrite Hx; exact id).
    apply filter_all. intros v [t Ht]%list_elem_of_lookup_1.
    apply lookup_lt_Some in Ht as Hlt. unfold keep.
    rewrite (Hinv t v) by (rewrite Hseq, lookup_app_l; done).
    subst iv. rewrite py_getitem_nat
      by (rewrite length_app, length_replicate; simpl; lia).
    rewrite lookup_app_l by by rewrite length_replicate.
    by rewrite lookup_replicate_2. }
  rewrite Hfilter in Hrun.
  eexists _, front, x. split; [done|]. split; [done|]. split; [exact Hrun|].
  split; [apply last_call_remove|].
  rewrite seq_of_set_seq, idx_of_set_seq, idx_of_set_idx.
  split; [|split; [done|]].
  - apply Hdead; [|done]. rewrite Hseq. apply elem_of_app. right. by left.
  - unfold caching_len, bind, get_seq, ret. rewrite seq_of_set_seq, Hn.
    do 2 f_equal. lia.
Qed.


(** ** The positions passed to the solver *)

Lemma read_all_Forall2 k hs vl st :
  Forall2 (fun v j => idx_of k st !! v = Some j) hs vl ->
  read_all k hs st = (Ok vl, st).
Proof.
  induction 1 as [|v j hs vl Hv _ IH]; simpl; [done|].
  unfold bind, read_idx, or_raise. rewrite Hv. simpl. by rewrite IH.
Qed.

(** C8, as the code has it.  When [remove] is given handles whose
    indices [vl] all lie in [0, len), the solver's batch removal
    receives the list [vl] sorted in ascending order: a permutation
    of [vl], in which an index occurs as often as handles carry it.
    It is free of duplicates exactly when the handles' indices are
    pairwise distinct. *)
Theorem remove_positions_sorted (k : kind) (st : State) (hs : list ref)
    (vl : list Z) :
  indexed k st ->
  Forall2 (fun v j => idx_of k st !! v = Some j) hs vl ->
  Forall (fun j => 0 <= j < Z.of_nat (length (seq_of k st))) vl ->
  exists st' positions,
    caching_remove k hs st = (Ok tt, st') /\
    last_call st' = Some (remove_call k positions) /\
    Sorted Z.le positions /\
    Permutation positions vl /\
    (NoDup positions <-> NoDup vl).
Proof.
  intros Hinv Hvl Hrange. apply read_all_Forall2 in Hvl.
  destruct (mark_in_range (merge_sort Z.le vl)
              (replicate (length (seq_of k st)) 1)) as [iv Hmark].
  { intros j Hj. rewrite merge_sort_Permutation in Hj.
    rewrite Forall_forall in Hrange. apply Hrange in Hj.
    unfold py_index. rewrite length_replicate, bool_decide_true by done.
    by eexists. }
  destruct (remove_run k hs st vl iv Hinv Hvl Hmark) as (h' & Hrun & _).
  eexists _, (merge_sort Z.le vl). split; [exact Hrun|].
  split; [apply last_call_remove|].
  split; [apply (Sorted_merge_sort Z.le)|].
  split; [apply merge_sort_Permutation|].
  by rewrite merge_sort_Permutation.
Qed.

(** ** Binary variables *)

(** C3.  [add] of a variable of type [BINARY], on the caching
    collection and on a view, issues exactly one solver call,
    [add_var] with lower bound [0.0] and upper bound [1.0], whatever
    [lb] and [ub] the caller gave. *)
Theorem binary_bounds_forced :
  (forall (name : string) (lb ub obj : float) (column : option Column) (st : State),
     exists v st' name',
       VarList_add name lb ub obj BINARY column st = (Ok v, st') /\
       calls (solver st') =
         calls (solver st) ++ [add_var_call obj float_0 float_1 BINARY column name']) /\
  (forall (self : VVarList) (name : string) (lb ub obj : float)
          (column : option Column) (st : State),
     exists v st' name',
       VVarList_add self name lb ub obj BINARY column st = (Ok v, st') /\
       calls (solver st') =
         calls (solver st) ++ [add_var_call obj float_0 float_1 BINARY column name']).
Proof.
  split.
  - intros name lb ub obj column st.
    destruct (VarList_add_run name lb ub obj BINARY column st)
      as (name' & lb' & ub' & Hrun & Hb).
    destruct Hb as [-> ->]; [done|].
    eexists _, _, name'. split; [exact Hrun|done].
  - intros self name lb ub obj column st.
    unfold VVarList_add. rewrite String.eqb_refl.
    destruct (String.eqb name "");
      unfold bind, VVarList_len, solver_ask, solver_do, new_handle, ret; simpl;
      eexists _, _, _; split; reflexivity.
Qed.

(** ** Lookup *)

(** C5, as the code has it.  On a view over [start, end), lookup
    with the key [-1] resolves the key to [end - (-1)], that is
    [end + 1], which is not below [end]: the lookup raises
    [IndexError] and returns no handle. *)
Theorem view_minus_one_raises (start end_ : Z) (st : State) :
  VVarList_getitem (mkVVarList (Some start) (Some end_)) (KInt (-1)) st
  = (Raise IndexError, st).
Proof.
  unfold VVarList_getitem, bind, as_int, or_raise, ret, raise. simpl.
  by rewrite bool_decide_true by lia.
Qed.

(** Every negative key is resolved to a position above [end]. *)
Lemma view_negative_key_raises (start end_ key : Z) (st : State) :
  key < 0 ->
  VVarList_getitem (mkVVarList (Some start) (Some end_)) (KInt key) st
  = (Raise IndexError, st).
Proof.
  intros Hneg.
  unfold VVarList_getitem, bind, as_int, or_raise, ret, raise. simpl.
  rewrite bool_decide_true by done. by rewrite bool_decide_true by lia.
Qed.

(** C7, as the code has it.  Lookup with a slice on a view raises:
    [VVarList] reads the attribute [end], which a [slice] does not
    have, and [VConstrList] calls itself with the same key until the
    interpreter runs out of call depth. *)
Theorem view_slice_raises :
  (forall (self : VVarList) (s : slice) (st : State),
     VVarList_getitem self (KSlice s) st = (Raise AttributeError, st)) /\
  (forall (depth : nat) (s : slice) (st : State),
     VConstrList_getitem depth (KSlice s) st = (Raise RecursionError, st)).
Proof.
  split; [done|].
  intros depth s st. induction depth as [|depth IH]; [done|exact IH].
Qed.

(** C6, as the code has it.  For a view constructed with any
    [start] and [end], scoped or not, [len] returns the solver's
    column count at the moment of the call; a column added through
    the solver alone raises it by one. *)
Theorem view_len_is_solver_count (start end_ : option Z) (st : State) :
  exists self st0,
    VVarList_init start end_ st = (Ok self, st0) /\
    forall st',
      VVarList_len self st' = (Ok (num_cols (solver st')), st') /\
      forall obj lb ub var_type column name,
        let st'' := set_solver (add_var obj lb ub var_type column name (solver st')) st' in
        VVarList_len self st'' = (Ok (num_cols (solver st') + 1), st'').
Proof.
  unfold VVarList_init. case_bool_decide; eexists _, _; (split; [reflexivity|]);
    intros st'; (split; [done|]); intros; cbv zeta;
    unfold VVarList_len, solver_ask, num_cols; simpl; do 2 f_equal; lia.
Qed.

(** [VConstrList.__getitem__] with an integer key checks no range. *)
Lemma VConstrList_getitem_int (depth : nat) (key : Z) (st : State) :
  VConstrList_getitem (S depth) (KInt key) st
  = (Ok (VHandle (length (constr_idx st))),
     set_idx KConstr (constr_idx st ++ [key]) st).
Proof. done. Qed.

(** C4, as the code has it.  Lookup with an integer key on a
    caching collection of length [n] raises [IndexError] when the
    key is below [-n] or at least [n]; a key in [-n, 0) is counted
    from the end and returns the handle at position [n + key].  On a
    view of variables over [start, end) the lookup raises
    [IndexError] for every key at or above [end]. *)
Theorem getitem_out_of_range :
  (forall (k : kind) (key : Z) (st : State),
     key < - Z.of_nat (length (seq_of k st)) \/ Z.of_nat (length (seq_of k st)) <= key ->
     caching_getitem k (KInt key) st = (Raise IndexError, st)) /\
  (forall (k : kind) (key : Z) (st : State),
     - Z.of_nat (length (seq_of k st)) <= key < 0 ->
     exists v,
       seq_of k st !! Z.to_nat (Z.of_nat (length (seq_of k st)) + key) = Some v /\
       caching_getitem k (KInt key) st = (Ok (VHandle v), st)) /\
  (forall (start end_ key : Z) (st : State),
     end_ <= key ->
     VVarList_getitem (mkVVarList (Some start) (Some end_)) (KInt key) st
     = (Raise IndexError, st)).
Proof.
  split; [|split].
  - intros k key st Hout.
    unfold caching_getitem, bind, get_seq, py_getitem, py_index.
    by rewrite !bool_decide_false by lia.
  - intros k key st Hin.
    destruct (lookup_lt_is_Some_2 (seq_of k st)
                (Z.to_nat (Z.of_nat (length (seq_of k st)) + key))) as [v Hv]; [lia|].
    exists v. split; [done|].
    unfold caching_getitem, bind, get_seq, py_getitem, py_index.
    rewrite bool_decide_false, bool_decide_true by lia. simpl. by rewrite Hv.
  - intros start end_ key st Hge.
    unfold VVarList_getitem, bind, as_int, or_raise, ret, raise. simpl.
    case_bool_decide; by rewrite bool_decide_true by lia.
Qed.

(** ** Further properties of [remove] *)

Lemma read_all_cons k v hs st :
  read_all k (v :: hs) st =
    match idx_of k st !! v with
    | Some j =>
      match read_all k hs st with
      | (Ok vl, st') => (Ok (j :: vl), st')
      | (Raise e, st') => (Raise e, st')
      end
    | None => (Raise NoObject, st)
    end.
Proof.
  simpl. unfold bind, read_idx, or_raise.
  by destruct (idx_of k st !! v).
Qed.

(** Reading the handles of a permuted list gives a permuted list of
    indices, or fails on both. *)
Lemma read_all_Permutation k st hs1 hs2 :
  Permutation hs1 hs2 ->
  match read_all k hs1 st, read_all k hs2 st with
  | (Ok vl1, _), (Ok vl2, _) => Permutation vl1 vl2
  | (Raise _, _), (Raise _, _) => True
  | _, _ => False
  end.
Proof.
  induction 1 as [|v hs1 hs2 _ IH|v u hs|hs1 hs2 hs3 _ IH1 _ IH2].
  - simpl. constructor.
  - rewrite !read_all_cons.
    destruct (idx_of k st !! v) as [j|]; [|done].
    destruct (read_all k hs1 st) as [[vl1|e1] st1],
             (read_all k hs2 st) as [[vl2|e2] st2]; try done.
    by constructor.
  - rewrite !read_all_cons.
    destruct (idx_of k st !! v) as [j|], (idx_of k st !! u) as [i|]; try done.
    destruct (read_all k hs st) as [[vl|e] st']; [|done].
    apply perm_swap.
  - destruct (read_all k hs1 st) as [[vl1|e1] st1],
             (read_all k hs2 st) as [[vl2|e2] st2],
             (read_all k hs3 st) as [[vl3|e3] st3]; try done.
    by etrans.
Qed.

(** X1.  [remove] does not depend on the order in which the handles
    are listed: two lists that are permutations of one another lead
    to the same outcome and the same state, with the same call to
    the solver. *)
Theorem remove_order_irrelevant (k : kind) (st : State) (hs1 hs2 : list ref) :
  Permutation hs1 hs2 ->
  caching_remove k hs1 st = caching_remove k hs2 st.
Proof.
  intros Hperm. pose proof (read_all_Permutation k st _ _ Hperm) as Hread.
  pose proof (read_all_state k hs1 st) as E1.
  pose proof (read_all_state k hs2 st) as E2.
  destruct (read_all k hs1 st) as [[vl1|e1] st1] eqn:H1,
           (read_all k hs2 st) as [[vl2|e2] st2] eqn:H2;
    simpl in *; subst; try done.
  - assert (Heq : merge_sort Z.le vl1 = merge_sort Z.le vl2).
    { apply (Sorted_unique Z.le); try apply Sorted_merge_sort; try apply _.
      by rewrite !merge_sort_Permutation. }
    unfold caching_remove, bind, get_seq. rewrite H1, H2. simpl.
    by rewrite Heq.
  - apply read_all_fail in H1 as Hl. apply read_all_fail in H2 as Hr.
    destruct Hl as [-> _], Hr as [-> _].
    unfold caching_remove, bind, get_seq. by rewrite H1, H2.
Qed.

Lemma mark_Some_in_range vl :
  forall iv iv', mark iv vl = Some iv' ->
    Forall (fun j => is_Some (py_index (length iv) j)) vl.
Proof.
  induction vl as [|j vl IH]; intros iv iv' Hm; simpl in Hm; [done|].
  unfold py_setitem in Hm.
  destruct (py_index (length iv) j) as [p|] eqn:Hp; simpl in Hm; [|done].
  constructor; [by rewrite Hp|].
  apply IH in Hm. by rewrite length_insert in Hm.
Qed.

(** X2.  When the index of one of the handles given to [remove] is
    below [-n] or at least [n], for [n] the length of the collection,
    [remove] raises [IndexError] and has done nothing: the solver
    has received no call, no handle has been written and the
    sequence is as it was. *)
Theorem remove_out_of_range_raises (k : kind) (st : State) (hs : list ref)
    (vl : list Z) :
  Forall2 (fun v j => idx_of k st !! v = Some j) hs vl ->
  Exists (fun j => j < - Z.of_nat (length (seq_of k st))
                   \/ Z.of_nat (length (seq_of k st)) <= j) vl ->
  caching_remove k hs st = (Raise IndexError, st).
Proof.
  intros Hvl Hout. apply read_all_Forall2 in Hvl.
  unfold caching_remove, bind at 1, get_seq.
  unfold bind at 1. rewrite Hvl.
  unfold bind at 1.
  destruct (mark (replicate (length (seq_of k st)) 1) (merge_sort Z.le vl))
    as [iv|] eqn:Hmark; [|done].
  exfalso. apply mark_Some_in_range in Hmark.
  rewrite length_replicate, merge_sort_Permutation in Hmark.
  apply Exists_exists in Hout as (j & Hj & Hrange).
  rewrite Forall_forall in Hmark. destruct (Hmark j Hj) as [p Hp].
  unfold py_index in Hp. rewrite !bool_decide_false in Hp by lia. done.
Qed.

(** ** Rebuilding a collection *)

Lemma fresh_handles_run k count :
  forall i st,
    fresh_handles k i count st =
      (Ok (seq (length (idx_of k st)) count),
       set_idx k (idx_of k st ++ seqZ i (Z.of_nat count)) st).
Proof.
  induction count as [|c IH]; intros i st.
  - simpl. unfold ret. by rewrite app_nil_r, set_idx_same.
  - cbn [fresh_handles]. unfold bind at 1, new_handle.
    unfold bind at 1. rewrite IH, idx_of_set_idx, set_idx_twice. unfold ret.
    rewrite length_app, Nat.add_1_r, <- app_assoc. simpl seq.
    rewrite (seqZ_cons i (Z.of_nat (S c))) by lia.
    by replace (Z.pred (Z.of_nat (S c))) with (Z.of_nat c) by lia.
Qed.

(** X3.  [update_vars(n)] and [update_constrs(n)] always return
    normally and leave a collection that satisfies the index
    invariant, of length [n] (none for a negative [n]).  The solver
    is not called, and every handle that existed before keeps its
    index but is no longer in the sequence. *)
Theorem update_rebuilds (k : kind) (n : Z) (st : State) :
  exists st',
    caching_update k n st = (Ok tt, st') /\
    indexed k st' /\
    caching_len k st' = (Ok (Z.max 0 n), st') /\
    solver st' = solver st /\
    (forall v j, idx_of k st !! v = Some j ->
       idx_of k st' !! v = Some j /\ v ∉ seq_of k st').
Proof.
  eexists. split.
  { unfold caching_update, bind. rewrite fresh_handles_run. reflexivity. }
  unfold put_seq.
  split; [|split; [|split; [|]]].
  - intros i v Hi. rewrite seq_of_set_seq in Hi.
    apply lookup_seq in Hi as [-> Hlt].
    rewrite idx_of_set_seq, idx_of_set_idx, lookup_app_r by lia.
    replace (length (idx_of k st) + i - length (idx_of k st))%nat with i by lia.
    rewrite lookup_seqZ_lt by lia. f_equal.
  - unfold caching_len, bind, get_seq, ret.
    rewrite seq_of_set_seq, length_seq. do 2 f_equal. lia.
  - by destruct k.
  - intros v j Hv. apply lookup_lt_Some in Hv as Hlt.
    rewrite idx_of_set_seq, idx_of_set_idx, seq_of_set_seq.
    split; [by rewrite lookup_app_l|].
    rewrite elem_of_seq. lia.
Qed.

(** ** Lookup by a handle's own index *)

(** X4.  On a caching collection that satisfies the index invariant,
    looking a cached handle up by its own index returns that very
    handle, and so does the index counted from the end; the lookup
    changes nothing.  Conversely a lookup by a key that is not
    negative returns a handle whose index is the key. *)
Theorem getitem_own_index (k : kind) (st : State) (v : ref) (i : Z) :
  indexed k st -> v ∈ seq_of k st -> idx_of k st !! v = Some i ->
  caching_getitem k (KInt i) st = (Ok (VHandle v), st) /\
  caching_getitem k (KInt (i - Z.of_nat (length (seq_of k st)))) st
    = (Ok (VHandle v), st) /\
  (forall key u st',
     0 <= key -> caching_getitem k (KInt key) st = (Ok (VHandle u), st') ->
     st' = st /\ idx_of k st !! u = Some key).
Proof.
  intros Hinv [t Ht]%list_elem_of_lookup_1 Hi.
  rewrite (Hinv _ _ Ht) in Hi. simplify_eq.
  apply lookup_lt_Some in Ht as Hlt.
  split; [|split].
  - unfold caching_getitem, bind, get_seq.
    by rewrite py_getitem_nat, Ht.
  - unfold caching_getitem, bind, get_seq, py_getitem, py_index.
    rewrite bool_decide_false, bool_decide_true by lia. simpl.
    replace (Z.to_nat (Z.of_nat (length (seq_of k st))
               + (Z.of_nat t - Z.of_nat (length (seq_of k st))))) with t by lia.
    by rewrite Ht.
  - intros key u st' Hkey. unfold caching_getitem, bind, get_seq, py_getitem, py_index.
    case_bool_decide as Hin; [|by rewrite bool_decide_false by lia].
    simpl. destruct (seq_of k st !! Z.to_nat key) as [w|] eqn:Hw; simpl; [|done].
    unfold ret. intros ?; simplify_eq. split; [done|].
    rewrite (Hinv _ _ Hw). f_equal. lia.
Qed.

(** ** Removal acts on positions *)

(** X5.  [remove] acts on positions, not on handle objects.  On a
    collection of length [n] that satisfies the index invariant,
    given handles whose indices lie in [-n, n), it returns normally
    and keeps the invariant; the cached handle at a position denoted
    by one of these indices (a negative one counted from the end) is
    detached and dropped, every other cached handle stays, in its
    former order, and a handle that is not cached, among them any
    handle given that is not itself cached, keeps its index. *)
Theorem remove_by_position (k : kind) (st : State) (hs : list ref) (vl : list Z) :
  indexed k st ->
  Forall2 (fun v j => idx_of k st !! v = Some j) hs vl ->
  Forall (fun j => (- Z.of_nat (length (seq_of k st)) <= j
                    < Z.of_nat (length (seq_of k st)))) vl ->
  exists st',
    caching_remove k hs st = (Ok tt, st') /\
    indexed k st' /\
    sublist (seq_of k st') (seq_of k st) /\
    (forall (t : nat) v j,
       seq_of k st !! t = Some v -> j ∈ vl ->
       py_index (length (seq_of k st)) j = Some t ->
       (v ∉ seq_of k st') /\ idx_of k st' !! v = Some (-1)) /\
    (forall (t : nat) v,
       seq_of k st !! t = Some v ->
       (forall j, j ∈ vl -> py_index (length (seq_of k st)) j <> Some t) ->
       v ∈ seq_of k st') /\
    (forall v, v ∉ seq_of k st -> idx_of k st' !! v = idx_of k st !! v).
Proof.
  intros Hinv Hvl Hrange. apply read_all_Forall2 in Hvl.
  destruct (mark_in_range (merge_sort Z.le vl)
              (replicate (length (seq_of k st)) 1)) as [iv Hmark].
  { intros j Hj. rewrite merge_sort_Permutation in Hj.
    rewrite Forall_forall in Hrange. apply Hrange in Hj.
    unfold py_index. rewrite length_replicate.
    case_bool_decide; [by eexists|].
    rewrite bool_decide_true by lia. by eexists. }
  destruct (remove_run k hs st vl iv Hinv Hvl Hmark)
    as (h' & Hrun & _ & Hout & Hdead & Hlive).
  assert (Hiv : length iv = length (seq_of k st)).
  { apply mark_length in Hmark. by rewrite length_replicate in Hmark. }
  assert (Hkeep : forall (t : nat) v, seq_of k st !! t = Some v ->
            keep (idx_of k st) iv v = bool_decide (iv !! t <> Some 0)).
  { intros t v Ht. apply lookup_lt_Some in Ht as Hlt. unfold keep.
    rewrite (Hinv _ _ Ht), py_getitem_nat by lia.
    destruct (iv !! t) as [flag|] eqn:Hflag.
    - apply bool_decide_ext. split; congruence.
    - apply lookup_ge_None in Hflag. lia. }
  eexists. split; [exact Hrun|].
  rewrite seq_of_set_seq, idx_of_set_seq, idx_of_set_idx.
  split; [|split; [apply sublist_filter|split; [|split; [|done]]]].
  - intros i v Hi. rewrite seq_of_set_seq in Hi.
    rewrite idx_of_set_seq, idx_of_set_idx. by apply Hlive.
  - intros t v j Ht Hj Hp.
    assert (Hk : keep (idx_of k st) iv v = false).
    { rewrite (Hkeep _ _ Ht), (mark_hit _ j t _ _ Hmark).
      - by rewrite bool_decide_false by (intros ?; done).
      - by rewrite merge_sort_Permutation.
      - by rewrite length_replicate. }
    split.
    + rewrite list_elem_of_filter, Hk. by intros [? _].
    + apply Hdead; [by eapply list_elem_of_lookup_2|done].
  - intros t v Ht Hmiss. apply lookup_lt_Some in Ht as Hlt.
    rewrite list_elem_of_filter. split; [|by eapply list_elem_of_lookup_2].
    rewrite (Hkeep _ _ Ht), (mark_miss _ t _ _ Hmark).
    + by rewrite lookup_replicate_2, bool_decide_true by done.
    + intros j Hj. rewrite merge_sort_Permutation in Hj.
      rewrite length_replicate. by apply Hmiss.
Qed.

(** ** Handles outside the sequence *)

Lemma remove_outcome k hs st :
  indexed k st ->
  (exists e, caching_remove k hs st = (Raise e, st)) \/
  (exists vl iv h',
     caching_remove k hs st =
       (Ok tt,
        set_seq k (filter (fun v => keep (idx_of k st) iv v) (seq_of k st))
          (set_idx k h'
             (set_solver (solver_remove k (merge_sort Z.le vl) (solver st)) st))) /\
     (forall v, v ∉ seq_of k st -> h' !! v = idx_of k st !! v)).
Proof.
  intros Hk.
  destruct (read_all k hs st) as [[vl|e] st1] eqn:Hread.
  - assert (st1 = st) as -> by by rewrite <- (read_all_state k hs st), Hread.
    destruct (mark (replicate (length (seq_of k st)) 1) (merge_sort Z.le vl))
      as [iv|] eqn:Hmark.
    + destruct (remove_run k hs st vl iv Hk Hread Hmark)
        as (h' & Hrun & _ & Hout & _).
      right. by exists vl, iv, h'.
    + left. apply remove_raises_early. right. by exists vl.
  - apply read_all_fail in Hread as Hst. destruct Hst as [-> ->].
    left. apply remove_raises_early. left. by exists NoObject.
Qed.

Lemma exec_outside o st k v j :
  (forall k', indexed k' st) ->
  v ∉ seq_of k st -> idx_of k st !! v = Some j ->
  idx_of k (exec o st).2 !! v = Some j /\ v ∉ seq_of k (exec o st).2.
Proof.
  intros Hinv Hv Hj. apply lookup_lt_Some in Hj as Hlt.
  destruct o as [a|e n|hs|hs]; cbn [exec].
  - unfold bind, VarList_add_args.
    destruct (VarList_add_run (va_name a) (va_lb a) (va_ub a) (va_obj a)
                (va_type a) (va_column a) st) as (n & l & u & -> & _).
    destruct k; simpl in *; [|done].
    split; [by rewrite lookup_app_l|].
    rewrite elem_of_app, list_elem_of_singleton. intros [?|?]; [done|lia].
  - unfold bind.
    destruct (ConstrList_add_run e n st) as (n' & ->).
    destruct k; simpl in *; [done|].
    split; [by rewrite lookup_app_l|].
    rewrite elem_of_app, list_elem_of_singleton. intros [?|?]; [done|lia].
  - unfold VarList_remove.
    destruct (remove_outcome KVar hs st (Hinv KVar))
      as [[e ->]|(vl & iv & h' & -> & Hout)]; [done|].
    destruct k; simpl in *; [|done].
    split; [by rewrite Hout|]. rewrite list_elem_of_filter. by intros [_ ?].
  - unfold ConstrList_remove.
    destruct (remove_outcome KConstr hs st (Hinv KConstr))
      as [[e ->]|(vl & iv & h' & -> & Hout)]; [done|].
    destruct k; simpl in *; [done|].
    split; [by rewrite Hout|]. rewrite list_elem_of_filter. by intros [_ ?].
Qed.

(** X6.  A handle that is not in the cached sequence, such as a
    removed one or one made by a view, is left alone by every later
    [add] and [remove] on the two caching collections: its index
    stays what it was (a removed handle stays at [-1]) and it never
    enters the sequence. *)
Theorem outside_handle_untouched (ops : list op) :
  forall (st : State) (k : kind) (v : ref) (j : Z),
    (forall k', indexed k' st) ->
    v ∉ seq_of k st -> idx_of k st !! v = Some j ->
    idx_of k (run ops st) !! v = Some j /\ v ∉ seq_of k (run ops st).
Proof.
  induction ops as [|o ops IH]; intros st k v j Hinv Hv Hj; simpl; [done|].
  destruct (exec_outside o st k v j Hinv Hv Hj) as [Hj' Hv'].
  apply IH; [by apply exec_indexed|done..].
Qed.

(** ** Views *)

(** X7.  A view made without bounds fixes its end when it is made, at
    the solver's column count of that moment.  Whatever state the
    model is in later, lookup with a key at or above that count
    raises [IndexError], also when the solver has gained columns
    since (and [len] of the view, which follows the solver, exceeds
    the key); lookup with a key from 0 up to that count returns a
    handle with the key as its index. *)
Theorem unscoped_view_end_fixed (st : State) :
  exists self,
    VVarList_init_default st = (Ok self, st) /\
    forall (st' : State) (key : Z),
      VVarList_len self st' = (Ok (num_cols (solver st')), st') /\
      (num_cols (solver st) <= key ->
       VVarList_getitem self (KInt key) st' = (Raise IndexError, st')) /\
      (0 <= key < num_cols (solver st) ->
       exists v st'',
         VVarList_getitem self (KInt key) st' = (Ok (VHandle v), st'') /\
         var_idx st'' !! v = Some key).
Proof.
  eexists. split; [reflexivity|]. intros st' key. split; [done|]. split.
  - intros Hge. unfold VVarList_getitem, bind, as_int, or_raise, ret, raise. simpl.
    case_bool_decide; by rewrite bool_decide_true by lia.
  - intros Hin. unfold VVarList_getitem, bind, as_int, or_raise, ret, raise. simpl.
    rewrite !bool_decide_false by lia. simpl.
    eexists _, _. split; [reflexivity|]. simpl.
    rewrite list_lookup_middle by done. f_equal. lia.
Qed.

(** X8.  A successful lookup on a view of variables makes a new
    handle every time: two lookups with the same key return two
    different objects, neither of which existed before, both with
    index [key + start].  The lookups call the solver for nothing,
    leave the cached sequence alone and change the index of no
    handle that existed. *)
Theorem view_lookup_fresh (start end_ key : Z) (st : State) :
  0 <= key < end_ ->
  exists a b st1 st2,
    VVarList_getitem (mkVVarList (Some start) (Some end_)) (KInt key) st
      = (Ok (VHandle a), st1) /\
    VVarList_getitem (mkVVarList (Some start) (Some end_)) (KInt key) st1
      = (Ok (VHandle b), st2) /\
    a <> b /\
    var_idx st !! a = None /\ var_idx st1 !! b = None /\
    var_idx st2 !! a = Some (key + start) /\
    var_idx st2 !! b = Some (key + start) /\
    vars st2 = vars st /\ solver st2 = solver st /\
    (forall v j, var_idx st !! v = Some j -> var_idx st2 !! v = Some j).
Proof.
  intros Hkey.
  exists (length (var_idx st)), (S (length (var_idx st))).
  eexists _, _. split; [|split].
  - unfold VVarList_getitem, bind, as_int, or_raise, ret, raise. simpl.
    rewrite !bool_decide_false by lia. reflexivity.
  - unfold VVarList_getitem, bind, as_int, or_raise, ret, raise. simpl.
    rewrite !bool_decide_false by lia. simpl.
    rewrite length_app, Nat.add_1_r. reflexivity.
  - simpl. split; [lia|]. split; [by apply lookup_ge_None|].
    split; [apply lookup_ge_None; rewrite length_app; simpl; lia|].
    split; [rewrite lookup_app_l by (rewrite length_app; simpl; lia);
            by rewrite list_lookup_middle|].
    split; [rewrite list_lookup_middle; [done|rewrite length_app; simpl; lia]|].
    split; [done|]. split; [done|].
    intros v j Hv. apply lookup_lt_Some in Hv as Hlt.
    by rewrite <- app_assoc, lookup_app_l.
Qed.

(** X9.  A variable added through a view is not cached.  When the
    caching collection is in step with the solver ([len] equal to
    the column count) and satisfies the index invariant, [add] on a
    view returns a handle with index [len] that is not put in the
    sequence; the next [add] on the caching collection returns a
    different handle with the same index [len], and the invariant
    still holds. *)
Theorem view_add_not_cached (self : VVarList) (a1 a2 : var_args) (st : State) :
  num_cols (solver st) = Z.of_nat (length (vars st)) ->
  indexed KVar st ->
  exists v1 st1 v2 st2,
    VVarList_add self (va_name a1) (va_lb a1) (va_ub a1) (va_obj a1)
      (va_type a1) (va_column a1) st = (Ok v1, st1) /\
    vars st1 = vars st /\
    VarList_add_args a2 st1 = (Ok v2, st2) /\
    v1 <> v2 /\
    var_idx st2 !! v1 = Some (Z.of_nat (length (vars st))) /\
    var_idx st2 !! v2 = Some (Z.of_nat (length (vars st))) /\
    vars st2 = vars st ++ [v2] /\
    indexed KVar st2.
Proof.
  intros Hsync Hinv.
  assert (Hadd : exists name',
    VVarList_add self (va_name a1) (va_lb a1) (va_ub a1) (va_obj a1)
      (va_type a1) (va_column a1) st
    = (Ok (length (var_idx st)),
       set_solver (add_var (va_obj a1)
           (if String.eqb (va_type a1) BINARY then float_0 else va_lb a1)
           (if String.eqb (va_type a1) BINARY then float_1 else va_ub a1)
           (va_type a1) (va_column a1) name' (solver st))
         (set_idx KVar (var_idx st ++ [num_cols (solver st)]) st))).
  { unfold VVarList_add.
    destruct (String.eqb (va_name a1) ""); eexists; reflexivity. }
  destruct Hadd as [name' Hadd]. rewrite Hsync in Hadd.
  match type of Hadd with _ = (_, ?s) => set (st1 := s) in * end.
  assert (Hinv1 : indexed KVar st1).
  { intros i v Hi. simpl in *. apply Hinv in Hi as Hv.
    rewrite lookup_app_l; [done|]. by eapply lookup_lt_Some. }
  pose proof (VarList_add_indexed a2 st1 KVar Hinv1) as Hinv2.
  unfold VarList_add_args in *.
  destruct (VarList_add_run (va_name a2) (va_lb a2) (va_ub a2) (va_obj a2)
              (va_type a2) (va_column a2) st1) as (n2 & l2 & u2 & Hadd2 & _).
  rewrite Hadd2 in Hinv2.
  eexists _, st1, _, _. split; [exact Hadd|]. split; [done|].
  split; [exact Hadd2|]. subst st1. simpl in *.
  rewrite length_app in *. simpl in *.
  split; [lia|].
  split; [by rewrite lookup_app_l, list_lookup_middle
            by (rewrite ?length_app; simpl; lia)|].
  split; [by rewrite list_lookup_middle by (rewrite length_app; simpl; lia)|].
  split; [done|exact Hinv2].
Qed.

(** ** Slices of a caching collection *)

Lemma slice_walk_elem {A} (l : list A) (count : nat) :
  forall pos step x, x ∈ slice_walk l pos step count -> x ∈ l.
Proof.
  induction count as [|c IH]; intros pos step x; simpl.
  - by intros ?%elem_of_nil.
  - destruct (l !! Z.to_nat pos) as [y|] eqn:Hy; [|by intros ?%elem_of_nil].
    intros [->|Hx]%elem_of_cons; [by eapply list_elem_of_lookup_2|by eapply IH].
Qed.

Lemma slice_walk_all {A} (l : list A) :
  forall pre, slice_walk (pre ++ l) (Z.of_nat (length pre)) 1 (length l) = l.
Proof.
  induction l as [|x l IH]; intros pre; simpl; [done|].
  rewrite Nat2Z.id, list_lookup_middle by done. f_equal.
  specialize (IH (pre ++ [x])).
  rewrite <- app_assoc, length_app in IH. simpl in IH.
  by replace (Z.of_nat (length pre) + 1) with (Z.of_nat (length pre + 1)) by lia.
Qed.

Lemma py_slice_full {A} (l : list A) :
  py_slice l (mkSlice None None None) = Some l.
Proof.
  unfold py_slice. cbn [slice_step slice_start slice_stop default].
  rewrite (bool_decide_false (1 = 0)), (bool_decide_false (1 < 0)) by lia.
  f_equal. pose proof (slice_walk_all l []) as Hall. simpl in Hall.
  case_bool_decide as Hlen.
  - rewrite Z.sub_0_r, Z.div_1_r.
    by replace (Z.to_nat (Z.of_nat (length l) - 1 + 1)) with (length l) by lia.
  - by destruct l; [|simpl in Hlen; lia].
Qed.

(** X10.  Lookup with a slice on a caching collection returns a
    plain list of handles and changes nothing: the whole sequence
    for [[:]], for any slice whose step is not zero a list of cached
    handles only (bounds out of range are clamped, never an error),
    and [ValueError] for a step of zero. *)
Theorem caching_getitem_slice :
  (forall (k : kind) (st : State),
     caching_getitem k (KSlice (mkSlice None None None)) st
     = (Ok (VHandles (seq_of k st)), st)) /\
  (forall (k : kind) (s : slice) (st : State),
     slice_step s <> Some 0 ->
     exists l,
       caching_getitem k (KSlice s) st = (Ok (VHandles l), st) /\
       l ⊆ seq_of k st) /\
  (forall (k : kind) (s : slice) (st : State),
     slice_step s = Some 0 ->
     caching_getitem k (KSlice s) st = (Raise ValueError, st)).
Proof.
  split; [|split].
  - intros k st. unfold caching_getitem, bind, get_seq.
    by rewrite py_slice_full.
  - intros k s st Hstep. unfold caching_getitem, bind, get_seq, py_slice.
    rewrite bool_decide_false
      by (destruct (slice_step s) as [z|]; simpl; [congruence|done]).
    eexists. split; [reflexivity|].
    intros x Hx. by eapply slice_walk_elem.
  - intros k s st Hstep. unfold caching_getitem, bind, get_seq, py_slice.
    by rewrite Hstep.
Qed.

End Collections.

(** * The properties on concrete models

    The scenarios are run with no column and linear-expression data
    ([unit]), the type codes ["B"] and ["C"] and an infinite default
    upper bound. *)

Local Abbreviation five :=
  (five_vars (Column:=unit) (LinExpr:=unit) "B" "C" float_inf).
Local Abbreviation three :=
  (three_vars (Column:=unit) (LinExpr:=unit) "B" "C" float_inf).
Local Abbreviation five_alias :=
  (five_vars_alias (Column:=unit) (LinExpr:=unit) "B" "C" float_inf no_name).

(** The scenario of the specification: five variables, then
    [remove([x1, x3])]. *)
Example five_vars_state :
  var_idx five = [0; 1; 2; 3; 4] /\ vars five = [0; 1; 2; 3; 4]%nat /\
  cols (solver five) = 5%nat.
Proof. by vm_compute. Qed.

Example three_vars_state :
  VarList_remove [1; 3]%nat five = (Ok tt, three) /\
  var_idx three = [0; -1; 1; -1; 2] /\ vars three = [0; 2; 4]%nat /\
  VarList_len three = (Ok 3, three) /\
  last_call three = Some (remove_vars_call [1; 3]).
Proof. by vm_compute. Qed.

(** Removal in the other order gives the same indices. *)
Example three_vars_any_order :
  VarList_remove [3; 1]%nat five = (Ok tt, three).
Proof. by vm_compute. Qed.

(** C1 on the scenario of the specification. *)
Lemma remove_compacts_witness :
  indexed KVar five /\ NoDup [1; 3]%nat /\ [1; 3]%nat ⊆ seq_of KVar five /\
  exists st',
    caching_remove KVar [1; 3]%nat five = (Ok tt, st') /\
    (forall v, v ∈ [1; 3]%nat -> idx_of KVar st' !! v = Some (-1)) /\
    seq_of KVar st' = filter (fun v => v ∉ [1; 3]%nat) (seq_of KVar five) /\
    (forall (i : nat) v,
       seq_of KVar st' !! i = Some v -> idx_of KVar st' !! v = Some (Z.of_nat i)) /\
    caching_len KVar st' =
      (Ok (Z.of_nat (length (seq_of KVar five)) - Z.of_nat (length [1; 3]%nat)), st').
Proof.
  assert (H1 : indexed KVar five) by apply five_vars_indexed.
  assert (H2 : NoDup [1; 3]%nat) by (by apply (bool_decide_unpack (NoDup [1; 3]%nat))).
  assert (H3 : [1; 3]%nat ⊆ seq_of KVar five).
  { intros v Hv. apply list_elem_of_In in Hv. apply list_elem_of_In.
    vm_compute in *. tauto. }
  split; [exact H1|]. split; [exact H2|]. split; [exact H3|].
  exact (remove_compacts KVar five [1; 3]%nat H1 H2 H3).
Defined.

(** C8: a second handle for the entity of [x0], passed along with
    [x0], makes the solver receive the position 0 twice. *)
Lemma remove_positions_duplicate :
  var_idx five_alias !! 0%nat = Some 0 /\ var_idx five_alias !! 5%nat = Some 0 /\
  exists st',
    VarList_remove [0; 5]%nat five_alias = (Ok tt, st') /\
    last_call st' = Some (remove_vars_call [0; 0]) /\
    ~ NoDup [0; 0].
Proof.
  split; [done|]. split; [done|]. eexists. split; [by vm_compute|].
  split; [done|]. intros Hnd. apply NoDup_cons in Hnd as [Hin _].
  apply Hin. by left.
Qed.

(** C8 on handles given out of order. *)
Lemma remove_positions_sorted_witness :
  indexed KVar five /\
  Forall2 (fun v j => idx_of KVar five !! v = Some j) [3; 1]%nat [3; 1] /\
  Forall (fun j => 0 <= j < Z.of_nat (length (seq_of KVar five))) [3; 1] /\
  exists st' positions,
    caching_remove KVar [3; 1]%nat five = (Ok tt, st') /\
    last_call st' = Some (remove_call KVar positions) /\
    Sorted Z.le positions /\
    Permutation positions [3; 1] /\
    (NoDup positions <-> NoDup [3; 1]).
Proof.
  assert (H1 : indexed KVar five) by apply five_vars_indexed.
  assert (H2 : Forall2 (fun v j => idx_of KVar five !! v = Some j) [3; 1]%nat [3; 1])
    by (repeat constructor).
  assert (H3 : Forall (fun j => 0 <= j < Z.of_nat (length (seq_of KVar five))) [3; 1])
    by (repeat constructor; vm_compute; congruence).
  split; [exact H1|]. split; [exact H2|]. split; [exact H3|].
  exact (remove_positions_sorted KVar five [3; 1]%nat [3; 1] H1 H2 H3).
Defined.

(** C10 on the scenario of the specification: removing the detached
    [x1] once more drops [x4]. *)
Lemma remove_detached_drops_last_witness :
  indexed KVar three /\ seq_of KVar three <> [] /\
  idx_of KVar three !! 1%nat = Some (-1) /\
  exists st' front last_handle,
    seq_of KVar three = front ++ [last_handle] /\
    mark (replicate (length (seq_of KVar three)) 1) [-1]
      = Some (replicate (length front) 1 ++ [0]) /\
    caching_remove KVar [1%nat] three = (Ok tt, st') /\
    last_call st' = Some (remove_call KVar [-1]) /\
    idx_of KVar st' !! last_handle = Some (-1) /\
    seq_of KVar st' = front /\
    caching_len KVar st' = (Ok (Z.of_nat (length (seq_of KVar three)) - 1), st').
Proof.
  assert (H1 : indexed KVar three) by apply three_vars_indexed.
  assert (H2 : seq_of KVar three <> []) by (vm_compute; congruence).
  assert (H3 : idx_of KVar three !! 1%nat = Some (-1)) by (by vm_compute).
  split; [exact H1|]. split; [exact H2|]. split; [exact H3|].
  exact (remove_detached_drops_last KVar three 1%nat H1 H2 H3).
Defined.

Example remove_detached_state :
  exists st', VarList_remove [1%nat] three = (Ok tt, st') /\
    var_idx st' = [0; -1; 1; -1; -1] /\ vars st' = [0; 2]%nat /\
    last_call st' = Some (remove_vars_call [-1]).
Proof. eexists. split; [by vm_compute|done]. Qed.

(** C4: keys outside [0, len) that the lookups accept.  On the five
    cached variables the key [-1] returns [x4]; a view of variables
    over [2, 5) accepts the key 3 and returns a handle with index 5;
    a view of constraints accepts the key 7 while the solver has no
    row. *)
Lemma getitem_out_of_range_counterexample :
  VarList_len five = (Ok 5, five) /\
  VarList_getitem no_name no_name (KInt (-1)) five = (Ok (VHandle 4%nat), five) /\
  (exists st',
     VVarList_getitem no_name (mkVVarList (Some 2) (Some 5)) (KInt 3) five
       = (Ok (VHandle 5%nat), st') /\
     var_idx st' !! 5%nat = Some 5) /\
  VConstrList_len five = (Ok 0, five) /\
  (exists st',
     VConstrList_getitem no_name 1 (KInt 7) five = (Ok (VHandle 0%nat), st') /\
     constr_idx st' !! 0%nat = Some 7).
Proof.
  split; [by vm_compute|]. split; [by vm_compute|].
  split; [eexists; split; [by vm_compute|done]|].
  split; [by vm_compute|]. eexists; split; [by vm_compute|done].
Qed.

(** C4, as the code has it, on the five cached variables and on a
    view over [2, 5). *)
Lemma getitem_out_of_range_witness :
  caching_getitem no_name no_name KVar (KInt 5) five = (Raise IndexError, five) /\
  caching_getitem no_name no_name KVar (KInt (-6)) five = (Raise IndexError, five) /\
  (exists v,
     seq_of KVar five !! Z.to_nat (Z.of_nat (length (seq_of KVar five)) + -2) = Some v /\
     caching_getitem no_name no_name KVar (KInt (-2)) five = (Ok (VHandle v), five)) /\
  VVarList_getitem no_name (mkVVarList (Some 2) (Some 5)) (KInt 5) five
    = (Raise IndexError, five).
Proof.
  destruct (getitem_out_of_range (Column:=unit) (LinExpr:=unit) no_name no_name)
    as (Hout & Hneg & Hview).
  split; [apply Hout; right; vm_compute; congruence|].
  split; [apply Hout; left; vm_compute; reflexivity|].
  split; [apply Hneg; vm_compute; split; congruence|].
  apply Hview. lia.
Defined.

(** A view made unscoped over the five variables follows the solver:
    after one more [add] on the caching collection, which the view
    is not told of, its length is 6. *)
Example unscoped_view_tracks :
  exists self st6,
    VVarList_init_default five = (Ok self, five) /\
    VVarList_len self five = (Ok 5, five) /\
    (VarList_add_default "B" "C" float_inf five).2 = st6 /\
    VVarList_len self st6 = (Ok 6, st6).
Proof. eexists _, _. by vm_compute. Qed.

(** C6: a view scoped to [2, 5) over a solver with five columns has
    length 5, not 3. *)
Lemma scoped_view_len_counterexample :
  exists self,
    VVarList_init (Some 2) (Some 5) five = (Ok self, five) /\
    VVarList_len self five = (Ok 5, five) /\
    VVarList_len self five <> (Ok (5 - 2), five).
Proof.
  eexists. split; [by vm_compute|]. split; [by vm_compute|].
  vm_compute. congruence.
Qed.

(** * Further properties on concrete models *)

Local Abbreviation rebuilt :=
  (rebuilt_two (Column:=unit) (LinExpr:=unit) "B" "C" float_inf).
Local Abbreviation plain_var :=
  (default_var (Column:=unit) "C" float_inf).

Example rebuilt_two_state :
  var_idx rebuilt = [0; 1; 2; 3; 4; 0; 1] /\ vars rebuilt = [5; 6]%nat /\
  solver rebuilt = solver five.
Proof. by vm_compute. Qed.

(** X1 on the scenario of the specification. *)
Lemma remove_order_irrelevant_witness :
  Permutation [1; 3]%nat [3; 1]%nat /\
  caching_remove KVar [1; 3]%nat five = caching_remove KVar [3; 1]%nat five.
Proof.
  assert (H : Permutation [1; 3]%nat [3; 1]%nat) by apply perm_swap.
  split; [exact H|]. exact (remove_order_irrelevant KVar five _ _ H).
Defined.

(** X2: after [update_vars(2)] the stale handle [x4], whose index is
    still 4, cannot be removed. *)
Lemma remove_out_of_range_raises_witness :
  Forall2 (fun v j => idx_of KVar rebuilt !! v = Some j) [4%nat] [4] /\
  Exists (fun j => j < - Z.of_nat (length (seq_of KVar rebuilt))
                   \/ Z.of_nat (length (seq_of KVar rebuilt)) <= j) [4] /\
  caching_remove KVar [4%nat] rebuilt = (Raise IndexError, rebuilt).
Proof.
  assert (H1 : Forall2 (fun v j => idx_of KVar rebuilt !! v = Some j) [4%nat] [4])
    by (repeat constructor).
  assert (H2 : Exists (fun j => j < - Z.of_nat (length (seq_of KVar rebuilt))
                   \/ Z.of_nat (length (seq_of KVar rebuilt)) <= j) [4])
    by (constructor; right; vm_compute; congruence).
  split; [exact H1|]. split; [exact H2|].
  exact (remove_out_of_range_raises KVar rebuilt [4%nat] [4] H1 H2).
Defined.

(** X4: [vars[2]] and [vars[-3]] are [x2]. *)
Lemma getitem_own_index_witness :
  indexed KVar five /\ 2%nat ∈ seq_of KVar five /\
  idx_of KVar five !! 2%nat = Some 2 /\
  caching_getitem no_name no_name KVar (KInt 2) five = (Ok (VHandle 2%nat), five) /\
  caching_getitem no_name no_name KVar
    (KInt (2 - Z.of_nat (length (seq_of KVar five)))) five
    = (Ok (VHandle 2%nat), five) /\
  (forall key u st',
     0 <= key ->
     caching_getitem no_name no_name KVar (KInt key) five = (Ok (VHandle u), st') ->
     st' = five /\ idx_of KVar five !! u = Some key).
Proof.
  assert (H1 : indexed KVar five) by apply five_vars_indexed.
  assert (H2 : 2%nat ∈ seq_of KVar five)
    by (apply list_elem_of_In; vm_compute; tauto).
  assert (H3 : idx_of KVar five !! 2%nat = Some 2) by reflexivity.
  split; [exact H1|]. split; [exact H2|]. split; [exact H3|].
  exact (getitem_own_index no_name no_name KVar five 2%nat 2 H1 H2 H3).
Defined.

(** X5: removing the second handle of [x0] (the reference 5, made by
    a view) detaches [x0] itself; the handle given keeps index 0. *)
Lemma remove_by_position_witness :
  indexed KVar five_alias /\
  Forall2 (fun v j => idx_of KVar five_alias !! v = Some j) [5%nat] [0] /\
  Forall (fun j => (- Z.of_nat (length (seq_of KVar five_alias)) <= j
                    < Z.of_nat (length (seq_of KVar five_alias)))) [0] /\
  exists st',
    caching_remove KVar [5%nat] five_alias = (Ok tt, st') /\
    indexed KVar st' /\
    sublist (seq_of KVar st') (seq_of KVar five_alias) /\
    (forall (t : nat) v j,
       seq_of KVar five_alias !! t = Some v -> j ∈ [0] ->
       py_index (length (seq_of KVar five_alias)) j = Some t ->
       (v ∉ seq_of KVar st') /\ idx_of KVar st' !! v = Some (-1)) /\
    (forall (t : nat) v,
       seq_of KVar five_alias !! t = Some v ->
       (forall j, j ∈ [0] -> py_index (length (seq_of KVar five_alias)) j <> Some t) ->
       v ∈ seq_of KVar st') /\
    (forall v, v ∉ seq_of KVar five_alias ->
       idx_of KVar st' !! v = idx_of KVar five_alias !! v).
Proof.
  assert (H1 : indexed KVar five_alias).
  { intros i v Hi.
    change (seq_of KVar five_alias) with [0; 1; 2; 3; 4]%nat in Hi.
    do 5 (destruct i as [|i]; [simpl in Hi; simplify_eq; reflexivity|]).
    discriminate Hi. }
  assert (H2 : Forall2 (fun v j => idx_of KVar five_alias !! v = Some j) [5%nat] [0])
    by (repeat constructor).
  assert (H3 : Forall (fun j => (- Z.of_nat (length (seq_of KVar five_alias)) <= j
                    < Z.of_nat (length (seq_of KVar five_alias)))) [0])
    by (repeat constructor; vm_compute; congruence).
  split; [exact H1|]. split; [exact H2|]. split; [exact H3|].
  exact (remove_by_position KVar five_alias [5%nat] [0] H1 H2 H3).
Defined.

Example remove_alias_state :
  exists st', VarList_remove [5%nat] five_alias = (Ok tt, st') /\
    var_idx st' = [-1; 0; 1; 2; 3; 0] /\ vars st' = [1; 2; 3; 4]%nat.
Proof. eexists. split; [by vm_compute|done]. Qed.

(** X6: the removed [x1] stays detached through a further [add] and
    a [remove] that names it again. *)
Lemma outside_handle_untouched_witness :
  (forall k', indexed k' three) /\ (1%nat ∉ seq_of KVar three) /\
  idx_of KVar three !! 1%nat = Some (-1) /\
  idx_of KVar (run "B" [op_add_var plain_var; op_remove_vars [1%nat]] three) !! 1%nat
    = Some (-1) /\
  1%nat ∉ seq_of KVar (run "B" [op_add_var plain_var; op_remove_vars [1%nat]] three).
Proof.
  assert (H1 : forall k', indexed k' three).
  { intros [|]; [apply three_vars_indexed|]. intros i v Hi. by vm_compute in Hi. }
  assert (H2 : 1%nat ∉ seq_of KVar three).
  { intros Hin. apply list_elem_of_In in Hin. vm_compute in Hin.
    repeat (destruct Hin as [Hin|Hin]; [discriminate|]). exact Hin. }
  assert (H3 : idx_of KVar three !! 1%nat = Some (-1)) by reflexivity.
  split; [exact H1|]. split; [exact H2|]. split; [exact H3|].
  exact (outside_handle_untouched "B" [op_add_var plain_var; op_remove_vars [1%nat]]
           three KVar 1%nat (-1) H1 H2 H3).
Defined.

(** X7 on the five variables: after one more [add] the view is six
    long and still refuses the key 5. *)
Example unscoped_view_stale_end :
  exists self st6,
    VVarList_init_default five = (Ok self, five) /\
    (VarList_add_default "B" "C" float_inf five).2 = st6 /\
    VVarList_len self st6 = (Ok 6, st6) /\
    VVarList_getitem no_name self (KInt 5) st6 = (Raise IndexError, st6).
Proof. eexists _, _. by vm_compute. Qed.

(** X8 on a view over [2, 5). *)
Lemma view_lookup_fresh_witness :
  0 <= 1 < 5 /\
  exists a b st1 st2,
    VVarList_getitem no_name (mkVVarList (Some 2) (Some 5)) (KInt 1) five
      = (Ok (VHandle a), st1) /\
    VVarList_getitem no_name (mkVVarList (Some 2) (Some 5)) (KInt 1) st1
      = (Ok (VHandle b), st2) /\
    a <> b /\
    var_idx five !! a = None /\ var_idx st1 !! b = None /\
    var_idx st2 !! a = Some (1 + 2) /\
    var_idx st2 !! b = Some (1 + 2) /\
    vars st2 = vars five /\ solver st2 = solver five /\
    (forall v j, var_idx five !! v = Some j -> var_idx st2 !! v = Some j).
Proof.
  assert (H : 0 <= 1 < 5) by lia.
  split; [exact H|]. exact (view_lookup_fresh no_name 2 5 1 five H).
Defined.

(** X9 on the five variables. *)
Lemma view_add_not_cached_witness :
  num_cols (solver five) = Z.of_nat (length (vars five)) /\
  indexed KVar five /\
  exists v1 st1 v2 st2,
    VVarList_add "B" (mkVVarList (Some 0) (Some 5)) (va_name plain_var)
      (va_lb plain_var) (va_ub plain_var) (va_obj plain_var)
      (va_type plain_var) (va_column plain_var) five = (Ok v1, st1) /\
    vars st1 = vars five /\
    VarList_add_args "B" plain_var st1 = (Ok v2, st2) /\
    v1 <> v2 /\
    var_idx st2 !! v1 = Some (Z.of_nat (length (vars five))) /\
    var_idx st2 !! v2 = Some (Z.of_nat (length (vars five))) /\
    vars st2 = vars five ++ [v2] /\
    indexed KVar st2.
Proof.
  assert (H1 : num_cols (solver five) = Z.of_nat (length (vars five)))
    by reflexivity.
  assert (H2 : indexed KVar five) by apply five_vars_indexed.
  split; [exact H1|]. split; [exact H2|].
  exact (view_add_not_cached "B" (mkVVarList (Some 0) (Some 5))
           plain_var plain_var five H1 H2).
Defined.
